(** * finance_newsletter: the backend pipeline of [backend.py]

    A shallow embedding of the newsletter backend (news filtering, price
    table alignment, document assembly, e-mail delivery) and the
    properties its specification states about it.

    Python values are modelled as follows.
    - [str] is [string]; the built-in methods [str.upper] and [str.strip]
      belong to the interpreter and are taken as parameters ([PyLib]).
    - [float] is IEEE binary64, modelled by [spec_float] with the operations
      of [SpecFloat] at precision 53 and maximal exponent 1024; pandas'
      missing value is the NaN.
    - exceptions are values of [exn]; only subclasses of [Exception] are
      modelled (interpreter signals such as KeyboardInterrupt are not).
    - the outside world (language model, feed, price provider, e-mail
      service, environment, clock) is a state of an arbitrary type [World]
      with one transition per external call ([Services]); every function
      that performs such calls is a state-and-error computation [M] that
      also appends the calls it makes to a trace of [Event]s. *)

From Stdlib Require Import List String Ascii ZArith Lia Bool.
From Stdlib Require Import Floats.SpecFloat.
Import ListNotations.
Local Open Scope string_scope.
Local Open Scope list_scope.

(** ** Python strings *)

Module PyStr.

(** [s.startswith(p)] *)
Fixpoint starts_with (p s : string) : bool :=
  match p, s with
  | EmptyString, _ => true
  | String _ _, EmptyString => false
  | String a p', String b s' => Ascii.eqb a b && starts_with p' s'
  end.

(** [needle in hay] for two strings *)
Fixpoint contains (needle hay : string) : bool :=
  starts_with needle hay ||
  match hay with
  | EmptyString => false
  | String _ hay' => contains needle hay'
  end.

(** [sep.join(parts)] *)
Fixpoint join (sep : string) (parts : list string) : string :=
  match parts with
  | [] => ""
  | [p] => p
  | p :: rest => (p ++ sep ++ join sep rest)%string
  end.

(** the strings of a list, one after the other *)
Definition concat_all (parts : list string) : string :=
  fold_right String.append "" parts.

(** [s.replace(c, by)] for a one-character pattern [c] *)
Fixpoint replace_char (c : ascii) (by_ : string) (s : string) : string :=
  match s with
  | EmptyString => EmptyString
  | String a s' =>
      if Ascii.eqb a c then (by_ ++ replace_char c by_ s')%string
      else String a (replace_char c by_ s')
  end.

(** [chr(10)] *)
Definition nl_char : ascii := Ascii.ascii_of_nat 10.
Definition nl : string := String nl_char EmptyString.

(** [str.upper] restricted to ASCII text, used to run the model *)
Definition ascii_upper_char (c : ascii) : ascii :=
  let n := Ascii.nat_of_ascii c in
  if (97 <=? n)%nat && (n <=? 122)%nat then Ascii.ascii_of_nat (n - 32) else c.

Fixpoint ascii_upper (s : string) : string :=
  match s with
  | EmptyString => EmptyString
  | String c s' => String (ascii_upper_char c) (ascii_upper s')
  end.

(** [str.strip] restricted to ASCII text: the white space of [str.isspace]
    below 128 is 9-13, 28-31 and 32. *)
Definition is_space (c : ascii) : bool :=
  let n := Ascii.nat_of_ascii c in
  ((9 <=? n)%nat && (n <=? 13)%nat) || ((28 <=? n)%nat && (n <=? 32)%nat).

Fixpoint lstrip (s : string) : string :=
  match s with
  | EmptyString => EmptyString
  | String c s' => if is_space c then lstrip s' else s
  end.

Fixpoint rstrip (s : string) : string :=
  match s with
  | EmptyString => EmptyString
  | String c s' =>
      match rstrip s' with
      | EmptyString => if is_space c then EmptyString else String c EmptyString
      | r => String c r
      end
  end.

Definition ascii_strip (s : string) : string := rstrip (lstrip s).

End PyStr.

(** ** News filtering *)

(** A feed article is the pair [(title, link)]; a matched article is the
    triple [(ticker, title, link)]. *)
Definition Article : Type := string * string.
Definition Matched : Type := string * string * string.

Definition m_ticker (m : Matched) : string := fst (fst m).
Definition m_title (m : Matched) : string := snd (fst m).
Definition m_link (m : Matched) : string := snd m.
Definition m_article (m : Matched) : Article := (m_title m, m_link m).

Section FilterNews.

(** [str.upper] *)
Variable upper : string -> string.

(** The inner loop [for t in upper: if t in title.upper(): append; break]. *)
Fixpoint filter_news_tickers (title link : string) (up : list string)
         (matches : list Matched) : list Matched :=
  match up with
  | [] => matches
  | t :: up' =>
      if PyStr.contains t (upper title)
      then matches ++ [(t, title, link)]
      else filter_news_tickers title link up' matches
  end.

(** The outer loop [for title, link in articles]. *)
Fixpoint filter_news_articles (articles : list Article) (up : list string)
         (matches : list Matched) : list Matched :=
  match articles with
  | [] => matches
  | (title, link) :: rest =>
      filter_news_articles rest up (filter_news_tickers title link up matches)
  end.

Definition filter_news (articles : list Article) (tickers : list string)
  : list Matched :=
  filter_news_articles articles (map upper tickers) [].

(** An article matches a ticker list when some upper-cased ticker occurs
    in its upper-cased title. *)
Definition mentions (tickers : list string) (a : Article) : bool :=
  existsb (fun t => PyStr.contains (upper t) (upper (fst a))) tickers.

(** [x] is the first ticker of [tickers] whose upper-casing occurs in the
    upper-cased [title]. *)
Definition first_match (tickers : list string) (title x : string) : Prop :=
  exists before after,
    tickers = before ++ x :: after /\
    PyStr.contains (upper x) (upper title) = true /\
    Forall (fun y => PyStr.contains (upper y) (upper title) = false) before.

End FilterNews.

(** ** Exceptions, results and the computation monad *)

(** An exception raised inside a call to an external library (the model
    client, feedparser, yfinance, the SendGrid client). *)
Inductive lib_exn : Type :=
| LibError (kind msg : string).

(** Exceptions as [backend.py] sees them: the ones it raises itself or
    provokes by indexing, and the ones that come out of a library call. *)
Inductive exn : Type :=
| ValueError (msg : string)
| RuntimeError (msg : string)
| KeyError (key : string)
| IndexError (msg : string)
| AttributeError (attr : string)
| Raised_by_library (e : lib_exn).

Inductive result (A : Type) : Type :=
| Ok (a : A)
| Err (e : exn).
Arguments Ok {A} a.
Arguments Err {A} e.

(** ** IEEE binary64 *)

Definition float : Type := spec_float.
Definition prec : Z := 53.
Definition emax : Z := 1024.

Definition float_of_Z (z : Z) : float := binary_normalize prec emax z 0 false.
Definition fdiv : float -> float -> float := SFdiv prec emax.
Definition fsub : float -> float -> float := SFsub prec emax.
Definition fmul : float -> float -> float := SFmul prec emax.

(** [pandas.isna] on a float cell *)
Definition isna (x : float) : bool :=
  match x with S754_nan => true | _ => false end.

Definition is_zero (x : float) : bool :=
  match x with S754_zero _ => true | _ => false end.

(** [numpy.rint]: the nearest integer, ties to the even one. *)
Definition rint (x : float) : float :=
  match x with
  | S754_finite s m e =>
      if (0 <=? e)%Z then x
      else
        let mrs := fst (shr (shr_record_of_loc (Zpos m) loc_Exact) e (- e)) in
        let k := round_nearest_even (shr_m mrs) (loc_of_shr_record mrs) in
        binary_normalize prec emax (cond_Zopp s k) 0 s
  | _ => x
  end.

(** [numpy.round(x, 2)] on one cell: [rint(x * 100) / 100]. *)
Definition round2 (x : float) : float :=
  fdiv (rint (fmul x (float_of_Z 100))) (float_of_Z 100).

(** The literal [0.3], nearest double to three tenths. *)
Definition temp_default : float := S754_finite false 5404319552844595 (-54).

(** ** Data exchanged with the external services *)

(** A trading day, as the provider's index labels it. *)
Definition Date : Type := Z.

(** What [yf.download(..., group_by="ticker")] returns: a frame whose
    columns are labelled by the pair (ticker, field). *)
Record Download : Type := {
  dl_index : list Date;
  dl_columns : list ((string * string) * list float)
}.

(** A frame with one column per ticker ([close_df], [cum_ret], [prices]). *)
Record Frame : Type := {
  f_index : list Date;
  f_columns : list (string * list float)
}.

(** One entry of a parsed feed; an attribute the feed did not provide is
    absent and reading it raises AttributeError. *)
Record Entry : Type := {
  e_title : option string;
  e_link : option string
}.

(** What [feedparser.parse] returns. The parser reports a source it could
    not reach or could not parse by setting [bozo], not by raising, and
    keeps the entries it recovered. *)
Record Feed : Type := {
  bozo : bool;
  entries : list Entry
}.

(** [sendgrid.helpers.mail.Mail] *)
Record Mail : Type := {
  from_email : string;
  to_emails : string;
  subject : string;
  html_content : string
}.

(** The response object of [SendGridAPIClient.send]. *)
Record Response : Type := {
  status_code : Z;
  body : string;
  headers : string
}.

(** A value written by [print]. *)
Inductive printed : Type :=
| PInt (z : Z)
| PBytes (b : string)
| PHeaders (h : string).

(** External calls and output, in the order the program performs them. *)
Inductive Event : Type :=
| NetChat (model prompt : string) (temperature : float)
| NetFeed (url : string)
| NetPrices (tickers : list string)
| NetSend (api_key : string) (msg : Mail)
| Stdout (v : printed).

(** The external collaborators. Each call may change the world and either
    answers or raises. *)
Record Services (World : Type) : Type := {
  getenv : World -> string -> option string;
  today_strftime : World -> string;
  chat_completions_create :
    string -> string -> float -> World -> (lib_exn + list (option string)) * World;
  feedparser_parse : string -> World -> (lib_exn + Feed) * World;
  yf_download : list string -> World -> (lib_exn + Download) * World;
  sendgrid_send : string -> Mail -> World -> (lib_exn + Response) * World
}.
Arguments getenv {World} _ _ _.
Arguments today_strftime {World} _ _.
Arguments chat_completions_create {World} _ _ _ _ _.
Arguments feedparser_parse {World} _ _ _.
Arguments yf_download {World} _ _ _.
Arguments sendgrid_send {World} _ _ _ _.

(** Interpreter and library functions that compute without side effects. *)
Record PyLib : Type := {
  upper : string -> string;
  strip : string -> string;
  (** the PNG of the current figure, base64-encoded, as a function of the
      plotted lines (label, x values, y values) *)
  savefig_png64 : list (string * list Date * list float) -> string;
  (** [DataFrame.to_markdown] of the transposed last row: the column
      labels (dates) and one row per ticker. pandas renders through the
      optional package tabulate and raises ImportError when it is absent. *)
  to_markdown : list Date -> list (string * list float) -> lib_exn + string
}.

Record State (World : Type) : Type := {
  world : World;
  trace : list Event
}.
Arguments Build_State {World} _ _.
Arguments world {World} _.
Arguments trace {World} _.

Definition M (World A : Type) : Type := State World -> result A * State World.

Definition ret {World A} (a : A) : M World A := fun st => (Ok a, st).

Definition raise {World A} (e : exn) : M World A := fun st => (Err e, st).

Definition bind {World A B} (m : M World A) (k : A -> M World B) : M World B :=
  fun st =>
    match m st with
    | (Ok a, st') => k a st'
    | (Err e, st') => (Err e, st')
    end.

(** [try: m  except Exception: handler] *)
Definition try_except {World A} (m : M World A) (handler : exn -> M World A)
  : M World A :=
  fun st =>
    match m st with
    | (Ok a, st') => (Ok a, st')
    | (Err e, st') => handler e st'
    end.

(** [print(v)] *)
Definition print {World} (v : printed) : M World unit :=
  fun st => (Ok tt, Build_State (world st) (trace st ++ [Stdout v])).

(** A call to an external service: the call is recorded, the world moves,
    and a library exception comes out as a raised exception. *)
Definition external {World A} (ev : Event)
           (call : World -> (lib_exn + A) * World) : M World A :=
  fun st =>
    let '(r, w') := call (world st) in
    let st' := Build_State w' (trace st ++ [ev]) in
    match r with
    | inr a => (Ok a, st')
    | inl e => (Err (Raised_by_library e), st')
    end.

(** Reading the process environment or the clock is not a network call. *)
Definition observe {World A} (f : World -> A) : M World A :=
  fun st => (Ok (f (world st)), st).

Declare Scope py_scope.
Delimit Scope py_scope with py.
Notation "x <- m ;; k" := (bind m (fun x => k))
  (at level 61, m at next level, right associativity) : py_scope.
Notation "m ;;; k" := (bind m (fun _ => k))
  (at level 61, right associativity) : py_scope.

(** ** Python lists and dicts *)

(** [l[:n]] *)
Definition slice_to {A} (n : Z) (l : list A) : list A :=
  if (0 <=? n)%Z then firstn (Z.to_nat n) l
  else firstn (List.length l - Z.to_nat (- n)) l.

(** [d[k] = v] on an insertion-ordered dict *)
Fixpoint dict_set {V} (k : string) (v : V) (d : list (string * V))
  : list (string * V) :=
  match d with
  | [] => [(k, v)]
  | (k', v') :: d' =>
      if String.eqb k' k then (k, v) :: d' else (k', v') :: dict_set k v d'
  end.

(** ** Frames *)

Definition res_bind {A B} (r : result A) (k : A -> result B) : result B :=
  match r with
  | Ok a => k a
  | Err e => Err e
  end.

(** [df.empty]: some axis has length zero. *)
Definition dl_empty (df : Download) : bool :=
  match dl_index df, dl_columns df with
  | [], _ => true
  | _, [] => true
  | _, _ => false
  end.

(** [df[t]["Close"]]: selecting the ticker, then the field; either
    selection raises KeyError when the label is absent. *)
Definition lookup_close (df : Download) (t : string) : result (list float) :=
  if existsb (fun c => String.eqb (fst (fst c)) t) (dl_columns df) then
    match find (fun c => String.eqb (fst (fst c)) t &&
                         String.eqb (snd (fst c)) "Close") (dl_columns df) with
    | Some c => Ok (snd c)
    | None => Err (KeyError "Close")
    end
  else Err (KeyError t).

(** The loop filling [closes]; [except KeyError: pass] skips the ticker. *)
Fixpoint collect_closes (df : Download) (tickers : list string)
         (closes : list (string * list float))
  : result (list (string * list float)) :=
  match tickers with
  | [] => Ok closes
  | t :: rest =>
      match lookup_close df t with
      | Ok series => collect_closes df rest (dict_set t series closes)
      | Err (KeyError _) => collect_closes df rest closes
      | Err e => Err e
      end
  end.

(** Keeping the positions a mask marks. *)
Fixpoint select {A} (mask : list bool) (l : list A) : list A :=
  match mask, l with
  | b :: mask', x :: l' => if b then x :: select mask' l' else select mask' l'
  | _, _ => []
  end.

(** Row [i] has a value in every column. *)
Definition row_complete (cols : list (string * list float)) (i : nat) : bool :=
  forallb (fun c => negb (isna (nth i (snd c) S754_nan))) cols.

(** [DataFrame.dropna()]: rows with a missing value in any column go. *)
Definition dropna (f : Frame) : Frame :=
  let mask := map (row_complete (f_columns f)) (seq 0 (List.length (f_index f))) in
  {| f_index := select mask (f_index f);
     f_columns := map (fun c => (fst c, select mask (snd c))) (f_columns f) |}.

(** [close_df / close_df.iloc[0] - 1]; [iloc[0]] raises on a frame
    without rows. *)
Definition cumulative_return (close_df : Frame) : result Frame :=
  match f_index close_df with
  | [] => Err (IndexError "single positional indexer is out-of-bounds")
  | _ :: _ =>
      Ok {| f_index := f_index close_df;
            f_columns :=
              map (fun c =>
                     (fst c,
                      map (fun v => fsub (fdiv v (hd S754_nan (snd c))) (float_of_Z 1))
                          (snd c)))
                  (f_columns close_df) |}
  end.

(** [prices.tail(1).T]: the last date and, per ticker, its last value. *)
Definition tail1 {A} (l : list A) : list A := skipn (List.length l - 1) l.

(** ** The backend *)

Section Backend.

Context {World : Type}.
Variable svc : Services World.
Variable lib : PyLib.

Local Open Scope py_scope.

(** *** OpenAI helper *)

Definition gpt (prompt model : string) (temp : float) : M World string :=
  resp <- external (NetChat model prompt temp)
                   (chat_completions_create svc model prompt temp) ;;
  match resp with
  | [] => raise (IndexError "list index out of range")
  | None :: _ => raise (AttributeError "strip")
  | Some content :: _ => ret (strip lib content)
  end.

(** *** Macro overview *)

Definition macro_prompt (today : string) : string :=
  ("As of " ++ today ++ ", in ≤200 words summarise last week’s key global "
   ++ "macroeconomic and geopolitical trends an investor should know.")%string.

Definition macro_overview : M World string :=
  today <- observe (today_strftime svc) ;;
  gpt (macro_prompt today) "gpt-4o-mini" temp_default.

(** *** News functions *)

Definition feed_url (query : string) : string :=
  ("https://feeds.finance.yahoo.com/rss/2.0/headline?s=" ++ query
   ++ "&region=US&lang=en-US")%string.

(** [(e.title, e.link)] *)
Definition entry_pair (e : Entry) : result Article :=
  match e_title e with
  | None => Err (AttributeError "title")
  | Some title =>
      match e_link e with
      | None => Err (AttributeError "link")
      | Some link => Ok (title, link)
      end
  end.

(** the list comprehension over the entries *)
Fixpoint entry_pairs (es : list Entry) : result (list Article) :=
  match es with
  | [] => Ok []
  | e :: es' =>
      res_bind (entry_pair e) (fun a =>
      res_bind (entry_pairs es') (fun rest => Ok (a :: rest)))
  end.

Definition lift {A} (r : result A) : M World A := fun st => (r, st).

Definition fetch_yahoo_news (tickers : list string) (n : Z) : M World (list Article) :=
  let query := PyStr.join "," tickers in
  feed <- external (NetFeed (feed_url query)) (feedparser_parse svc (feed_url query)) ;;
  lift (entry_pairs (slice_to n (entries feed))).

Definition summary_prompt (title link : string) : string :=
  ("Summarise the following headline & link in 2-3 sentences for an investor."
   ++ PyStr.nl ++ "TITLE: " ++ title ++ PyStr.nl ++ "LINK: " ++ link)%string.

Definition short_summary (title link : string) : M World string :=
  gpt (summary_prompt title link) "gpt-3.5-turbo" temp_default.

(** *** Price + chart *)

Definition frame_round (f : Frame) : Frame :=
  {| f_index := f_index f;
     f_columns := map (fun c => (fst c, map round2 (snd c))) (f_columns f) |}.

(** the lines handed to [plt.plot], one per column of [cum_ret] *)
Definition chart_lines (cum_ret : Frame)
  : list (string * list Date * list float) :=
  map (fun c => (fst c, f_index cum_ret,
                 map (fun v => fmul v (float_of_Z 100)) (snd c)))
      (f_columns cum_ret).

(** [price_data] from the point where the download [df] has arrived. *)
Definition price_data_from (df : Download) (tickers : list string)
  : result (Frame * string) :=
  if dl_empty df then Err (ValueError "yfinance returned no data.")
  else
    res_bind (collect_closes df tickers []) (fun closes =>
    match closes with
    | [] => Err (ValueError "No Close column in download.")
    | _ :: _ =>
        let close_df := dropna {| f_index := dl_index df; f_columns := closes |} in
        res_bind (cumulative_return close_df) (fun cum_ret =>
        let png64 := savefig_png64 lib (chart_lines cum_ret) in
        Ok (frame_round close_df, png64))
    end).

Definition price_data (tickers : list string) : M World (Frame * string) :=
  df <- external (NetPrices tickers) (yf_download svc tickers) ;;
  lift (price_data_from df tickers).

(** *** Master generator *)

(** [f"- **{t}** {s}\n  <{link}>\n"] *)
Definition entry (t s link : string) : string :=
  ("- **" ++ t ++ "** " ++ s ++ PyStr.nl ++ "  <" ++ link ++ ">" ++ PyStr.nl)%string.

(** the body of the loop up to the value of [s] *)
Definition summary_or_title (title link : string) : M World string :=
  try_except (short_summary title link) (fun _ => ret title).

(** [for t, title, link in ...: ...; article_block += ...] *)
Fixpoint article_loop (matched : list Matched) (article_block : string)
  : M World string :=
  match matched with
  | [] => ret article_block
  | (t, title, link) :: rest =>
      s <- summary_or_title title link ;;
      article_loop rest (article_block ++ entry t s link)%string
  end.

(** [article_block or 'No relevant news today.'] *)
Definition news_highlights (article_block : string) : string :=
  match article_block with
  | EmptyString => "No relevant news today."
  | _ => article_block
  end.

Definition document (macro region table_md article_block : string) : string :=
  ("## Macroeconomic Overview" ++ PyStr.nl ++ macro ++ PyStr.nl ++ PyStr.nl
   ++ "## Latest 30-day Close (last row) – " ++ region ++ PyStr.nl
   ++ table_md ++ PyStr.nl ++ PyStr.nl
   ++ "## News Highlights" ++ PyStr.nl ++ news_highlights article_block)%string.

(** [prices.tail(1).T.to_markdown()] *)
Definition last_row_markdown (prices : Frame) : lib_exn + string :=
  to_markdown lib (tail1 (f_index prices))
              (map (fun c => (fst c, tail1 (snd c))) (f_columns prices)).

(** the outcome of a library function that computes without side effects *)
Definition library {A} (r : lib_exn + A) : M World A :=
  lift (match r with
        | inr a => Ok a
        | inl e => Err (Raised_by_library e)
        end).

(** [build_newsletter] from the price stage on, the news block being
    built. *)
Definition build_newsletter_finish (macro region article_block : string)
           (tickers : list string) : M World (string * string * Frame) :=
  pc <- price_data tickers ;;
  let prices := fst pc in
  let chart64 := snd pc in
  table_md <- library (last_row_markdown prices) ;;
  ret (document macro region table_md article_block, chart64, prices).

Definition build_newsletter (tickers : list string) (region : string)
  : M World (string * string * Frame) :=
  macro <- macro_overview ;;
  news <- fetch_yahoo_news tickers 20 ;;
  let matched := filter_news (upper lib) news tickers in
  article_block <- article_loop (slice_to 6 matched) "" ;;
  build_newsletter_finish macro region article_block tickers.

(** *** SendGrid e-mail *)

Definition dquote : string := String (Ascii.ascii_of_nat 34) EmptyString.

Definition img_tag (img64 : string) : string :=
  match img64 with
  | EmptyString => ""
  | _ => ("<img src=" ++ dquote ++ "data:image/png;base64," ++ img64 ++ dquote
          ++ " width=" ++ dquote ++ "600" ++ dquote ++ ">")%string
  end.

Definition html_of (md_body img64 : string) : string :=
  ("<html><body>" ++ PyStr.replace_char PyStr.nl_char "<br>" md_body
   ++ img_tag img64 ++ "</body></html>")%string.

Definition mail_of (to_email md_body img64 : string) : Mail :=
  {| from_email := "luis.kerner@icloud.com";
     to_emails := to_email;
     subject := "Your Personalised Financial Newsletter";
     html_content := html_of md_body img64 |}.

(** [os.getenv(name, "")] *)
Definition getenv_or_empty (name : string) : M World string :=
  observe (fun w => match getenv svc w name with Some v => v | None => "" end).

(** The function ends without a [return]: its caller receives [None],
    whatever the service answered. *)
Definition send_newsletter (to_email md_body img64 : string)
  : M World (option Response) :=
  sg_key <- getenv_or_empty "SENDGRID_API_KEY" ;;
  match sg_key with
  | EmptyString => raise (RuntimeError "SENDGRID_API_KEY not set")
  | _ =>
      let msg := mail_of to_email md_body img64 in
      response <- external (NetSend sg_key msg) (sendgrid_send svc sg_key msg) ;;
      print (PInt (status_code response)) ;;;
      print (PBytes (body response)) ;;;
      print (PHeaders (headers response)) ;;;
      ret None
  end.

End Backend.

(** ** Price tables: what the specification promises *)

(** An aligned table: every column has one value per date of the index
    and no value is missing. *)
Definition frame_aligned (f : Frame) : Prop :=
  Forall (fun c => List.length (snd c) = List.length (f_index f) /\
                   Forall (fun v => isna v = false) (snd c))
         (f_columns f).

(** The column [c] is the closing series of its ticker in [df]. *)
Definition close_of (df : Download) (c : string * list float) : Prop :=
  lookup_close df (fst c) = Ok (snd c).

(** The first row of a table, column by column. *)
Definition first_row (f : Frame) : list float :=
  map (fun c => hd S754_nan (snd c)) (f_columns f).

(** Every value of the table is a price or is missing: a closing price
    is a finite number, the provider delivers no infinity. *)
Definition is_infinite (x : float) : bool :=
  match x with S754_infinity _ => true | _ => false end.

Definition finite_prices (f : Frame) : Prop :=
  Forall (fun c => Forall (fun v => is_infinite v = false) (snd c)) (f_columns f).

(** ** Delivery and feed: what the specification promises *)

Section Promises.

Context {World : Type}.
Variable svc : Services World.

(** [SENDGRID_API_KEY] is absent from the environment, or empty. *)
Definition credential_missing (w : World) : bool :=
  match getenv svc w "SENDGRID_API_KEY" with
  | None => true
  | Some EmptyString => true
  | Some (String _ _) => false
  end.

(** The state after one external call recorded as [ev] that left the
    world as [w']. *)
Definition after_call (st : State World) (ev : Event) (w' : World) : State World :=
  {| world := w'; trace := trace st ++ [ev] |}.

(** The delivery receipt in the words of the specification: whenever the
    service accepts the message, the caller gets the service's response
    back. *)
Definition returns_receipt (to_email md_body img64 : string) (st : State World)
  : Prop :=
  forall key r w',
    getenv svc (world st) "SENDGRID_API_KEY" = Some key ->
    key <> "" ->
    sendgrid_send svc key (mail_of to_email md_body img64) (world st) = (inr r, w') ->
    fst (send_newsletter svc to_email md_body img64 st) = Ok (Some r).

(** The feed failure in the words of the specification: a source that
    could not be reached or parsed, which the parser reports with its
    [bozo] flag, makes [fetch_yahoo_news] fail. *)
Definition fails_on_bad_feed (tickers : list string) (n : Z) (st : State World)
  : Prop :=
  forall f w',
    feedparser_parse svc (feed_url (PyStr.join "," tickers)) (world st) = (inr f, w') ->
    bozo f = true ->
    exists e, fst (fetch_yahoo_news svc tickers n st) = Err e.

(** The entry has both a title and a link. *)
Definition entry_complete (e : Entry) : bool :=
  match e_title e, e_link e with
  | Some _, Some _ => true
  | _, _ => false
  end.

Definition entry_texts (e : Entry) : Article :=
  (match e_title e with Some t => t | None => "" end,
   match e_link e with Some l => l | None => "" end).

End Promises.

(** ** The news block, entry by entry *)

Section NewsBlock.

Context {World : Type}.
Variable svc : Services World.
Variable lib : PyLib.

(** The summary each article of [matched] receives, in order: the model's
    answer or, when the request raises, the title. *)
Fixpoint summaries (matched : list Matched) (st : State World)
  : list string * State World :=
  match matched with
  | [] => ([], st)
  | m :: rest =>
      let '(r, st1) := short_summary svc lib (m_title m) (m_link m) st in
      let s := match r with Ok s => s | Err _ => m_title m end in
      let '(ss, st2) := summaries rest st1 in
      (s :: ss, st2)
  end.

(** One rendered entry per article, with the summaries given. *)
Definition rendered (matched : list Matched) (ss : list string) : list string :=
  map (fun ms => entry (m_ticker (fst ms)) (snd ms) (m_link (fst ms)))
      (combine matched ss).

(** The news section in the words of the specification: one rendered
    entry (ticker, summary, link) for each matched article, in matched
    order, or the placeholder when nothing matched. *)
Definition news_section_spec (matched : list Matched) (st : State World)
  : string :=
  match matched with
  | [] => "No relevant news today."
  | _ :: _ =>
      PyStr.concat_all
        (map (fun ms =>
                ("- **" ++ m_ticker (fst ms) ++ "** " ++ snd ms ++ PyStr.nl
                 ++ "  <" ++ m_link (fst ms) ++ ">" ++ PyStr.nl)%string)
             (combine matched (fst (summaries matched st))))
  end.

(** The document in the words of the specification: whenever
    [build_newsletter] returns a document, its news-highlights section is
    that of all the matched articles. *)
Definition lists_every_matched (tickers : list string) (region : string)
           (st : State World) : Prop :=
  forall macro st1 news st2 md chart prices st',
    macro_overview svc lib st = (Ok macro, st1) ->
    fetch_yahoo_news svc tickers 20 st1 = (Ok news, st2) ->
    build_newsletter svc lib tickers region st = (Ok (md, chart, prices), st') ->
    exists table_md,
      last_row_markdown lib prices = inr table_md /\
      md = ("## Macroeconomic Overview" ++ PyStr.nl ++ macro ++ PyStr.nl ++ PyStr.nl
            ++ "## Latest 30-day Close (last row) – " ++ region ++ PyStr.nl
            ++ table_md ++ PyStr.nl ++ PyStr.nl
            ++ "## News Highlights" ++ PyStr.nl
            ++ news_section_spec (filter_news (upper lib) news tickers) st2)%string.

End NewsBlock.

(** ** A small world to run the backend in *)

Module Sim.

(** The services answer from fixed data; the model endpoint is down for
    the prompts that mention one of [chat_outage]. Every request is
    counted. *)
Record World : Type := {
  env : list (string * string);
  clock : string;
  chat_outage : list string;
  chat_reply : list (option string);
  feed : lib_exn + Feed;
  download : lib_exn + Download;
  mail : lib_exn + Response;
  requests : nat
}.

Definition tick (w : World) : World :=
  {| env := env w; clock := clock w; chat_outage := chat_outage w;
     chat_reply := chat_reply w; feed := feed w; download := download w;
     mail := mail w; requests := S (requests w) |}.

Definition lookup_env (w : World) (name : string) : option string :=
  option_map snd (find (fun kv => String.eqb (fst kv) name) (env w)).

Definition chat (model prompt : string) (temp : float) (w : World)
  : (lib_exn + list (option string)) * World :=
  if existsb (fun k => PyStr.contains k prompt) (chat_outage w)
  then (inl (LibError "APIConnectionError" "Connection error."), tick w)
  else (inr (chat_reply w), tick w).

Definition services : Services World :=
  {| getenv := lookup_env;
     today_strftime := clock;
     chat_completions_create := chat;
     feedparser_parse := fun _ w => (feed w, tick w);
     yf_download := fun _ w => (download w, tick w);
     sendgrid_send := fun _ _ w => (mail w, tick w) |}.

(** ASCII text only; the chart and the table are stood in for by the
    labels they show. *)
Definition pylib : PyLib :=
  {| upper := PyStr.ascii_upper;
     strip := PyStr.ascii_strip;
     savefig_png64 := fun lines => PyStr.join "," (map (fun l => fst (fst l)) lines);
     to_markdown := fun _ rows => inr (PyStr.join "|" (map fst rows)) |}.

Definition start (w : World) : State World := {| world := w; trace := [] |}.

Definition accepted : Response :=
  {| status_code := 202; body := ""; headers := "Server: nginx" |}.

Definition no_entries : Feed := {| bozo := false; entries := [] |}.

Definition no_download : Download := {| dl_index := []; dl_columns := [] |}.

(** A quiet world: empty feed, empty download, the mail accepted. *)
Definition quiet : World :=
  {| env := [("SENDGRID_API_KEY", "SG.key")];
     clock := "January 02, 2024";
     chat_outage := [];
     chat_reply := [Some " Markets were calm. "];
     feed := inr no_entries;
     download := inr no_download;
     mail := inr accepted;
     requests := 0 |}.

(** Seven headlines about one ticker, and two days of its prices. *)
Definition seven_news : list Article :=
  [("Aapl story 1", "http://n/1"); ("AAPL story 2", "http://n/2");
   ("aapl story 3", "http://n/3"); ("AAPL story 4", "http://n/4");
   ("AAPL story 5", "http://n/5"); ("AAPL story 6", "http://n/6");
   ("AAPL story 7", "http://n/7")].

Definition seven_matched : list Matched :=
  filter_news PyStr.ascii_upper seven_news ["aapl"].

Definition seven_entries : Feed :=
  {| bozo := false;
     entries := map (fun a => {| e_title := Some (fst a); e_link := Some (snd a) |})
                    seven_news |}.

Definition aapl_two_days : Download :=
  {| dl_index := [19723; 19724]%Z;
     dl_columns :=
       [(("AAPL", "Open"), [float_of_Z 185; float_of_Z 187]);
        (("AAPL", "Close"), [float_of_Z 187; float_of_Z 189])] |}.

(** A busy world: seven headlines, and the model endpoint down for the
    second one. *)
Definition busy : World :=
  {| env := [("SENDGRID_API_KEY", "SG.key")];
     clock := "January 02, 2024";
     chat_outage := ["story 2"];
     chat_reply := [Some " A short note. "];
     feed := inr seven_entries;
     download := inr aapl_two_days;
     mail := inr accepted;
     requests := 0 |}.

(** Two requested tickers, one of which the provider could not find:
    yfinance keeps its columns and leaves them without values. *)
Definition aapl_and_unknown : Download :=
  {| dl_index := [19723; 19724]%Z;
     dl_columns :=
       [(("AAPL", "Close"), [float_of_Z 187; float_of_Z 189]);
        (("ZZZZ", "Close"), [S754_nan; S754_nan])] |}.

Definition half_known : World :=
  {| env := env quiet; clock := clock quiet; chat_outage := [];
     chat_reply := chat_reply quiet; feed := feed quiet;
     download := inr aapl_and_unknown; mail := mail quiet; requests := 0 |}.

(** A world without the delivery credential. *)
Definition unconfigured : World :=
  {| env := [("OPENAI_API_KEY", "sk-key")];
     clock := clock quiet; chat_outage := []; chat_reply := chat_reply quiet;
     feed := feed quiet; download := download quiet; mail := mail quiet;
     requests := 0 |}.

(** A world whose feed source cannot be reached: the parser answers with
    the bozo flag set and no entries. *)
Definition unreachable_feed : Feed := {| bozo := true; entries := [] |}.

Definition offline : World :=
  {| env := env quiet; clock := clock quiet; chat_outage := [];
     chat_reply := chat_reply quiet;
     feed := inr unreachable_feed;
     download := download quiet; mail := mail quiet; requests := 0 |}.

(** The busy world after the overview and after the feed. *)
Definition value_or {A} (d : A) (r : result A * State World) : A :=
  match fst r with Ok a => a | Err _ => d end.

Definition busy_overview : result string * State World :=
  macro_overview services pylib (start busy).
Definition busy_macro : string := value_or "" busy_overview.
Definition busy_st1 : State World := snd busy_overview.

Definition busy_fetch : result (list Article) * State World :=
  fetch_yahoo_news services ["AAPL"] 20 busy_st1.
Definition busy_news : list Article := value_or [] busy_fetch.
Definition busy_st2 : State World := snd busy_fetch.

(** The closing prices of [aapl_two_days] as a table, and the price stage
    in the busy world. *)
Definition aapl_closes : Frame :=
  {| f_index := [19723; 19724]%Z;
     f_columns := [("AAPL", [float_of_Z 187; float_of_Z 189])] |}.

Definition busy_price_run : result (Frame * string) * State World :=
  price_data services pylib ["AAPL"] (start busy).
Definition busy_prices : Frame :=
  fst (value_or ({| f_index := []; f_columns := [] |}, "") busy_price_run).
Definition busy_chart : string :=
  snd (value_or ({| f_index := []; f_columns := [] |}, "") busy_price_run).

End Sim.

(** ** Notions used to state further properties *)

(** The ticker has a closing series in the download. *)
Definition has_close (df : Download) (t : string) : bool :=
  match lookup_close df t with Ok _ => true | Err _ => false end.

(** The elements of a list in order of first occurrence. *)
Fixpoint dedup (l : list string) : list string :=
  match l with
  | [] => []
  | x :: r => x :: filter (fun y => negb (String.eqb y x)) (dedup r)
  end.

(** Membership in a list of strings, as a boolean. *)
Definition mem (x : string) (l : list string) : bool :=
  existsb (String.eqb x) l.

(** A request to the model, the feed or the price provider. *)
Definition is_request (ev : Event) : bool :=
  match ev with
  | NetChat _ _ _ | NetFeed _ | NetPrices _ => true
  | NetSend _ _ | Stdout _ => false
  end.

(** A message handed to the e-mail service. *)
Definition is_send (ev : Event) : bool :=
  match ev with NetSend _ _ => true | _ => false end.

(** The request [short_summary] makes for a matched article. *)
Definition summary_request (m : Matched) : Event :=
  NetChat "gpt-3.5-turbo" (summary_prompt (m_title m) (m_link m)) temp_default.

(** Whatever its outcome, the computation adds to the trace only events
    that satisfy [P]. *)
Definition emits {World A} (P : Event -> bool) (m : M World A) : Prop :=
  forall st, exists evs,
    trace (snd (m st)) = trace st ++ evs /\ forallb P evs = true.

(** Every column of the download has a value for every date. *)
Definition download_complete (df : Download) : Prop :=
  Forall (fun c => List.length (snd c) = List.length (dl_index df) /\
                   Forall (fun v => isna v = false) (snd c))
         (dl_columns df).

(** ** More data to run the backend on *)

Module SimMore.

(** A feed whose second entry came without a link. *)
Definition broken_entries : Feed :=
  {| bozo := false;
     entries :=
       [ {| e_title := Some "AAPL story 1"; e_link := Some "http://n/1" |};
         {| e_title := Some "AAPL story 2"; e_link := None |};
         {| e_title := Some "AAPL story 3"; e_link := Some "http://n/3" |} ] |}.

Definition broken_feed : Sim.World :=
  {| Sim.env := Sim.env Sim.quiet; Sim.clock := Sim.clock Sim.quiet;
     Sim.chat_outage := []; Sim.chat_reply := Sim.chat_reply Sim.quiet;
     Sim.feed := inr broken_entries;
     Sim.download := Sim.download Sim.quiet; Sim.mail := Sim.mail Sim.quiet;
     Sim.requests := 0 |}.

(** The price table of two days of one ticker, requested twice. *)
Definition aapl_twice : result (Frame * string) :=
  price_data_from Sim.pylib Sim.aapl_two_days ["AAPL"; "NONE"; "AAPL"].
Definition aapl_twice_prices : Frame :=
  match aapl_twice with
  | Ok pc => fst pc
  | Err _ => {| f_index := []; f_columns := [] |}
  end.
Definition aapl_twice_chart : string :=
  match aapl_twice with Ok pc => snd pc | Err _ => "" end.

(** Two tickers over three days; the first has no price on the second
    day, so the alignment has to drop that day in both columns. *)
Definition one_gap : Download :=
  {| dl_index := [19723; 19724; 19725]%Z;
     dl_columns :=
       [(("AAPL", "Close"), [float_of_Z 187; S754_nan; float_of_Z 189]);
        (("MSFT", "Close"), [float_of_Z 410; float_of_Z 411; float_of_Z 412])] |}.

Definition gappy : Sim.World :=
  {| Sim.env := Sim.env Sim.quiet; Sim.clock := Sim.clock Sim.quiet;
     Sim.chat_outage := []; Sim.chat_reply := Sim.chat_reply Sim.quiet;
     Sim.feed := Sim.feed Sim.quiet; Sim.download := inr one_gap;
     Sim.mail := Sim.mail Sim.quiet; Sim.requests := 0 |}.

Definition gappy_run : result (Frame * string) * State Sim.World :=
  price_data Sim.services Sim.pylib ["AAPL"; "MSFT"] (Sim.start gappy).
Definition gappy_prices : Frame :=
  fst (Sim.value_or ({| f_index := []; f_columns := [] |}, "") gappy_run).
Definition gappy_chart : string :=
  snd (Sim.value_or ({| f_index := []; f_columns := [] |}, "") gappy_run).

(** The headlines of the busy world with the prices of [one_gap], asked
    about a ticker that none of the headlines mentions. *)
Definition unmentioned : Sim.World :=
  {| Sim.env := Sim.env Sim.busy; Sim.clock := Sim.clock Sim.busy;
     Sim.chat_outage := Sim.chat_outage Sim.busy;
     Sim.chat_reply := Sim.chat_reply Sim.busy;
     Sim.feed := Sim.feed Sim.busy; Sim.download := inr one_gap;
     Sim.mail := Sim.mail Sim.busy; Sim.requests := 0 |}.

Definition unmentioned_overview : result string * State Sim.World :=
  macro_overview Sim.services Sim.pylib (Sim.start unmentioned).
Definition unmentioned_macro : string := Sim.value_or "" unmentioned_overview.
Definition unmentioned_st1 : State Sim.World := snd unmentioned_overview.
Definition unmentioned_fetch : result (list Article) * State Sim.World :=
  fetch_yahoo_news Sim.services ["MSFT"] 20 unmentioned_st1.
Definition unmentioned_news : list Article := Sim.value_or [] unmentioned_fetch.
Definition unmentioned_st2 : State Sim.World := snd unmentioned_fetch.
Definition unmentioned_build : result (string * string * Frame) * State Sim.World :=
  build_newsletter Sim.services Sim.pylib ["MSFT"] "USA" (Sim.start unmentioned).
Definition unmentioned_built : string * string * Frame :=
  Sim.value_or ("", "", {| f_index := []; f_columns := [] |}) unmentioned_build.

(** The newsletter of the busy world. *)
Definition busy_build : result (string * string * Frame) * State Sim.World :=
  build_newsletter Sim.services Sim.pylib ["AAPL"] "USA" (Sim.start Sim.busy).
Definition busy_built : string * string * Frame :=
  Sim.value_or ("", "", {| f_index := []; f_columns := [] |}) busy_build.

(** A world whose e-mail service rejects the message. *)
Definition rejecting : Sim.World :=
  {| Sim.env := Sim.env Sim.quiet; Sim.clock := Sim.clock Sim.quiet;
     Sim.chat_outage := []; Sim.chat_reply := Sim.chat_reply Sim.quiet;
     Sim.feed := Sim.feed Sim.quiet; Sim.download := Sim.download Sim.quiet;
     Sim.mail := inl (LibError "ForbiddenError" "HTTP Error 403: Forbidden");
     Sim.requests := 0 |}.

End SimMore.

(** ** The Streamlit front end ([ui.py]) *)

(** One run of the script reads its widgets, may call the backend, and
    puts elements on the page. The widgets are read as the run finds them:
    nothing is assumed about which buttons a run may see clicked. *)

(** What a run puts on the page, and the page it fetches for itself. For
    an error box built from an exception the exception is kept beside the
    text it is formatted into. *)
Inductive UiEvent : Type :=
| PageConfig (page_title layout : string)
| Title (text : string)
| ErrorBox (text : string) (cause : option exn)
| Spinner (text : string)
| Subheader (text : string)
| Dataframe (dates : list Date) (rows : list (string * list float))
| Markdown (md : string)
| Image (src caption : string)
| SuccessBox (text : string)
| ReadHtml (url : string).

(** [st.text_input(label, value, key)], [st.selectbox(label, options)] and
    [st.button(label)] as this run reads them. *)
Record Widgets : Type := {
  text_input : string -> string -> option string -> string;
  selectbox : string -> list string -> string;
  button : string -> bool
}.

(** [pd.read_html], which returns the tables of a page as columns of
    texts, and [random.sample] on a population that is large enough. *)
Record WebServices (World : Type) : Type := {
  read_html : string -> World -> (lib_exn + list (list (string * list string))) * World;
  random_sample : list string -> nat -> World -> list string * World
}.
Arguments read_html {World} _ _ _.
Arguments random_sample {World} _ _ _ _.

(** The backend state, the page so far, and [st.session_state.tickers]
    ([None] while the key is not in the session state). *)
Record UiState (World : Type) : Type := {
  backend : State World;
  page : list UiEvent;
  session_tickers : option (list string)
}.
Arguments Build_UiState {World} _ _ _.
Arguments backend {World} _.
Arguments page {World} _.
Arguments session_tickers {World} _.

(** How a run, or a part of it, ends: it goes on with a value, it was
    stopped by [st.stop()], or an exception left it. *)
Inductive outcome (A : Type) : Type :=
| Went (a : A)
| Stopped
| Crashed (e : exn).
Arguments Went {A} a.
Arguments Stopped {A}.
Arguments Crashed {A} e.

Definition U (World A : Type) : Type := UiState World -> outcome A * UiState World.

Definition uret {World A} (a : A) : U World A := fun u => (Went a, u).

Definition ubind {World A B} (m : U World A) (k : A -> U World B) : U World B :=
  fun u =>
    match m u with
    | (Went a, u') => k a u'
    | (Stopped, u') => (Stopped, u')
    | (Crashed e, u') => (Crashed e, u')
    end.

(** [st.stop()] *)
Definition stop {World A} : U World A := fun u => (Stopped, u).

Definition crash {World A} (e : exn) : U World A := fun u => (Crashed e, u).

(** a display call *)
Definition show {World} (ev : UiEvent) : U World unit :=
  fun u => (Went tt, {| backend := backend u; page := page u ++ [ev];
                        session_tickers := session_tickers u |}).

(** a call into [backend.py] *)
Definition run_backend {World A} (m : M World A) : U World A :=
  fun u =>
    let '(r, st') := m (backend u) in
    let u' := {| backend := st'; page := page u;
                 session_tickers := session_tickers u |} in
    match r with
    | Ok a => (Went a, u')
    | Err e => (Crashed e, u')
    end.

(** [try: m  except Exception as e: h e]; [st.stop()] is not an Exception
    and passes through. *)
Definition try_exception {World A} (m : U World A) (h : exn -> U World A)
  : U World A :=
  fun u =>
    match m u with
    | (Crashed e, u') => h e u'
    | (Went a, u') => (Went a, u')
    | (Stopped, u') => (Stopped, u')
    end.

(** a call the script makes to the web itself *)
Definition web_call {World A} (ev : UiEvent)
           (call : World -> (lib_exn + A) * World) : U World A :=
  fun u =>
    let '(r, w') := call (world (backend u)) in
    let u' := {| backend := {| world := w'; trace := trace (backend u) |};
                 page := page u ++ [ev];
                 session_tickers := session_tickers u |} in
    match r with
    | inr a => (Went a, u')
    | inl e => (Crashed (Raised_by_library e), u')
    end.

(** [st.session_state.tickers = l] *)
Definition set_session {World} (l : list string) : U World unit :=
  fun u => (Went tt, {| backend := backend u; page := page u;
                        session_tickers := Some l |}).

Declare Scope ui_scope.
Delimit Scope ui_scope with ui.
Notation "x <- m ;; k" := (ubind m (fun x => k))
  (at level 61, m at next level, right associativity) : ui_scope.
Notation "m ;;; k" := (ubind m (fun _ => k))
  (at level 61, right associativity) : ui_scope.

(** [l[i] = v] for an index inside the list *)
Fixpoint list_update {A} (i : nat) (v : A) (l : list A) : list A :=
  match l, i with
  | [], _ => []
  | _ :: l', O => v :: l'
  | x :: l', S i' => x :: list_update i' v l'
  end.

(** [str(n)] for a one-digit [n] *)
Definition digit (n : nat) : string := String (Ascii.ascii_of_nat (48 + n)) EmptyString.

(** the truth value of a string: it is not empty *)
Definition nonempty (s : string) : bool :=
  match s with EmptyString => false | String _ _ => true end.

Definition regions : list string := ["USA"; "Europe"; "Germany"; "Asia"; "Australia"].

Definition wikipedia_sp500 : string :=
  "https://en.wikipedia.org/wiki/List_of_S%26P_500_companies".

Section FrontEnd.

Context {World : Type}.
Variable svc : Services World.
Variable lib : PyLib.
Variable web : WebServices World.
Variable w : Widgets.

Local Open Scope ui_scope.

(** [if "tickers" not in st.session_state: ... = ["", "", ""]] *)
Definition init_session : U World unit :=
  fun u =>
    match session_tickers u with
    | None => set_session [""; ""; ""] u
    | Some _ => (Went tt, u)
    end.

Definition ticker_label (i : nat) : string := ("Stock Ticker " ++ digit (i + 1))%string.
Definition ticker_key (i : nat) : string := ("T" ++ digit i)%string.

(** the body of [for i in range(3)]: the field shows the session's text
    and the session takes the field's *)
Definition ticker_input (i : nat) : U World unit :=
  fun u =>
    match session_tickers u with
    | None => crash (AttributeError "tickers") u
    | Some l =>
        match nth_error l i with
        | None => crash (IndexError "list index out of range") u
        | Some v =>
            set_session
              (list_update i (text_input w (ticker_label i) v (Some (ticker_key i))) l) u
        end
    end.

Fixpoint ticker_inputs (range : list nat) : U World unit :=
  match range with
  | [] => uret tt
  | i :: rest => ticker_input i ;;; ticker_inputs rest
  end.

(** the body of [if st.button("Random (S&P 500)")] *)
Definition random_tickers : U World unit :=
  tables <- web_call (ReadHtml wikipedia_sp500) (read_html web wikipedia_sp500) ;;
  match tables with
  | [] => crash (IndexError "list index out of range")
  | table :: _ =>
      match find (fun c => String.eqb (fst c) "Symbol") table with
      | None => crash (KeyError "Symbol")
      | Some c =>
          let sp := snd c in
          if (List.length sp <? 3)%nat
          then crash (ValueError "Sample larger than population or is negative")
          else
            fun u =>
              let '(picked, w') := random_sample web sp 3 (world (backend u)) in
              set_session picked
                {| backend := {| world := w'; trace := trace (backend u) |};
                   page := page u; session_tickers := session_tickers u |}
      end
  end.

(** [[t.upper() for t in st.session_state.tickers if t]] *)
Definition submitted_tickers (session : list string) : list string :=
  map (upper lib) (filter nonempty session).

(** the [try] block of the Submit branch *)
Definition preview_and_send (email region : string) (tickers : list string)
  : U World unit :=
  show (Spinner "Building newsletter…") ;;;
  built <- run_backend (build_newsletter svc lib tickers region) ;;
  let md := fst (fst built) in
  let chart64 := snd (fst built) in
  let price_df := snd built in
  show (Subheader "Latest Close Prices") ;;;
  show (Dataframe (tail1 (f_index price_df))
                  (map (fun c => (fst c, tail1 (snd c))) (f_columns price_df))) ;;;
  show (Subheader "Preview") ;;;
  show (Markdown md) ;;;
  (if nonempty chart64
   then show (Image ("data:image/png;base64," ++ chart64) "30-day performance")
   else uret tt) ;;;
  if button w "Send Newsletter"
  then
    show (Spinner "Sending e-mail…") ;;;
    run_backend (send_newsletter svc email md chart64) ;;;
    show (SuccessBox ("Newsletter sent to " ++ email ++ "!"))
  else uret tt.

(** the body of [if st.button("Submit")] *)
Definition submit (email region : string) : U World unit :=
  fun u =>
    match session_tickers u with
    | None => crash (AttributeError "tickers") u
    | Some session =>
        let tickers := submitted_tickers session in
        if nonempty email && match tickers with [] => false | _ :: _ => true end
        then
          try_exception (preview_and_send email region tickers)
            (fun e => show (ErrorBox "Error creating newsletter: " (Some e))) u
        else
          (show (ErrorBox "Please enter an e-mail and at least one ticker." None) ;;;
           stop) u
    end.

(** One run of [ui.py]. *)
Definition script : U World unit :=
  show (PageConfig "Personalised Financial Newsletter" "centered") ;;;
  show (Title "📬 Personalised Financial Newsletter") ;;;
  let email := text_input w "Email" "" None in
  let region := selectbox w "Region" regions in
  init_session ;;;
  ticker_inputs [0; 1; 2] ;;;
  (if button w "🎲 Random (S&P 500)" then random_tickers else uret tt) ;;;
  if button w "Submit" then submit email region else uret tt.

(** The session's tickers after the three fields were read. *)
Definition typed_tickers (session : list string) : list string :=
  [text_input w (ticker_label 0) (nth 0 session "") (Some (ticker_key 0));
   text_input w (ticker_label 1) (nth 1 session "") (Some (ticker_key 1));
   text_input w (ticker_label 2) (nth 2 session "") (Some (ticker_key 2))].

(** The session state a run starts from: absent, or three texts. *)
Definition session_of (u : UiState World) : list string :=
  match session_tickers u with
  | None => [""; ""; ""]
  | Some l => l
  end.

Definition session_ready (u : UiState World) : Prop :=
  List.length (session_of u) = 3.

(** The state of a run once the title is shown and the fields are read. *)
Definition after_fields (u : UiState World) : UiState World :=
  {| backend := backend u;
     page := page u ++ [PageConfig "Personalised Financial Newsletter" "centered";
                        Title "📬 Personalised Financial Newsletter"];
     session_tickers := Some (typed_tickers (session_of u)) |}.

(** What the Submit branch shows once the newsletter is built. *)
Definition preview (md chart64 : string) (price_df : Frame) : list UiEvent :=
  [Spinner "Building newsletter…";
   Subheader "Latest Close Prices";
   Dataframe (tail1 (f_index price_df))
             (map (fun c => (fst c, tail1 (snd c))) (f_columns price_df));
   Subheader "Preview";
   Markdown md] ++
  (if nonempty chart64
   then [Image ("data:image/png;base64," ++ chart64) "30-day performance"]
   else []).

(** The [except] clause of the Submit branch. *)
Definition report_error (e : exn) : U World unit :=
  show (ErrorBox "Error creating newsletter: " (Some e)).

(** The rest of the run: the two buttons. *)
Definition buttons : U World unit :=
  (if button w "🎲 Random (S&P 500)" then random_tickers else uret tt) ;;;
  if button w "Submit"
  then submit (text_input w "Email" "" None) (selectbox w "Region" regions)
  else uret tt.

End FrontEnd.

(** Whatever its outcome, the part of a run adds to the backend's trace
    only events that satisfy [P]. *)
Definition uemits {World A} (P : Event -> bool) (m : U World A) : Prop :=
  forall u, exists evs,
    trace (backend (snd (m u))) = trace (backend u) ++ evs /\
    forallb P evs = true.

(** ** A browser session to run the front end in *)

Module SimUi.

(** The fields and buttons of one run, by label. *)
Definition widgets (email t0 t1 t2 : string) (random submit send : bool) : Widgets :=
  {| text_input := fun label value key =>
       if String.eqb label "Email" then email
       else if String.eqb label "Stock Ticker 1" then t0
       else if String.eqb label "Stock Ticker 2" then t1
       else if String.eqb label "Stock Ticker 3" then t2
       else value;
     selectbox := fun label options => hd "" options;
     button := fun label =>
       if String.eqb label "Submit" then submit
       else if String.eqb label "Send Newsletter" then send
       else random |}.

(** The reference page has one table of four symbols; the sample is its
    first symbols. *)
Definition web : WebServices Sim.World :=
  {| read_html := fun _ wd =>
       (inr [[("Symbol", ["MMM"; "AOS"; "ABT"; "ABBV"]);
              ("Security", ["3M"; "A. O. Smith"; "Abbott"; "AbbVie"])]], Sim.tick wd);
     random_sample := fun sp k wd => (firstn k sp, Sim.tick wd) |}.

(** The reference page cannot be read. *)
Definition web_down : WebServices Sim.World :=
  {| read_html := fun _ wd =>
       (inl (LibError "URLError" "timed out"), Sim.tick wd);
     random_sample := fun sp k wd => (firstn k sp, Sim.tick wd) |}.

Definition fresh (wd : Sim.World) : UiState Sim.World :=
  {| backend := Sim.start wd; page := []; session_tickers := None |}.

(** The busy world without the delivery credential, and the newsletter
    built in it for the ticker typed in the first field. *)
Definition busy_no_key : Sim.World :=
  {| Sim.env := []; Sim.clock := Sim.clock Sim.busy;
     Sim.chat_outage := Sim.chat_outage Sim.busy;
     Sim.chat_reply := Sim.chat_reply Sim.busy;
     Sim.feed := Sim.feed Sim.busy; Sim.download := Sim.download Sim.busy;
     Sim.mail := Sim.mail Sim.busy; Sim.requests := 0 |}.

Definition built : result (string * string * Frame) * State Sim.World :=
  build_newsletter Sim.services Sim.pylib ["AAPL"] "USA" (Sim.start busy_no_key).
Definition built_value : string * string * Frame :=
  Sim.value_or ("", "", {| f_index := []; f_columns := [] |}) built.
Definition built_md : string := fst (fst built_value).
Definition built_chart : string := snd (fst built_value).
Definition built_prices : Frame := snd built_value.

(** The reader typed an address and one ticker and clicked Submit; in
    [sending] the Send button is reported as clicked in the same run. *)
Definition submitting : Widgets := widgets "a@b.c" "aapl" "" "" false true false.
Definition sending : Widgets := widgets "a@b.c" "aapl" "" "" false true true.

End SimUi.

(** ** Properties of [filter_news] *)

Section FilterNewsFacts.

Variable upper : string -> string.

Lemma starts_with_app (p s : string) :
  PyStr.starts_with p s = true <-> exists r, s = (p ++ r)%string.
Proof.
  revert s; induction p as [|a p IH]; intros s; simpl.
  - split; [intros _; now exists s | reflexivity].
  - destruct s as [|b s].
    + split; [discriminate | intros [r Hr]; discriminate].
    + rewrite andb_true_iff, Ascii.eqb_eq, IH. split.
      * intros [-> [r ->]]. now exists r.
      * intros [r Hr]. injection Hr as -> ->. split; [reflexivity | now exists r].
Qed.

Lemma contains_substring (needle hay : string) :
  PyStr.contains needle hay = true <->
  exists l r, hay = (l ++ needle ++ r)%string.
Proof.
  induction hay as [|b hay IH].
  - simpl. rewrite orb_false_r, starts_with_app. split.
    + intros [r Hr]. now exists "", r.
    + intros [l [r Hr]]. destruct l; [now exists r | discriminate].
  - cbn [PyStr.contains]. rewrite orb_true_iff, starts_with_app, IH. split.
    + intros [[r Hr] | [l [r Hr]]].
      * now exists "", r.
      * exists (String b l), r. simpl. now rewrite Hr.
    + intros [l [r Hr]]. destruct l as [|c l].
      * left. now exists r.
      * right. simpl in Hr. injection Hr as _ Hr. now exists l, r.
Qed.

Lemma filter_news_tickers_acc title link up matches :
  filter_news_tickers upper title link up matches =
  matches ++ filter_news_tickers upper title link up [].
Proof.
  induction up as [|t up IH]; simpl.
  - now rewrite app_nil_r.
  - destruct (PyStr.contains t (upper title)); [reflexivity | exact IH].
Qed.

Lemma filter_news_articles_acc articles up matches :
  filter_news_articles upper articles up matches =
  matches ++ filter_news_articles upper articles up [].
Proof.
  revert matches; induction articles as [|[title link] rest IH]; intros matches; simpl.
  - now rewrite app_nil_r.
  - rewrite IH, (IH (filter_news_tickers _ _ _ _ [])), app_assoc.
    now rewrite <- filter_news_tickers_acc.
Qed.

Lemma filter_news_cons title link rest tickers :
  filter_news upper ((title, link) :: rest) tickers =
  filter_news_tickers upper title link (map upper tickers) [] ++
  filter_news upper rest tickers.
Proof.
  unfold filter_news; simpl. apply filter_news_articles_acc.
Qed.

(** What the inner loop adds for one article. *)
Lemma filter_news_tickers_cases title link tickers :
  (mentions upper tickers (title, link) = false /\
   filter_news_tickers upper title link (map upper tickers) [] = []) \/
  (mentions upper tickers (title, link) = true /\
   exists x, first_match upper tickers title x /\
     filter_news_tickers upper title link (map upper tickers) [] =
     [(upper x, title, link)]).
Proof.
  induction tickers as [|t ts IH]; simpl.
  - now left.
  - destruct (PyStr.contains (upper t) (upper title)) eqn:E; simpl.
    + right. split; [reflexivity|]. exists t. split; [|reflexivity].
      exists [], ts. repeat split; [assumption | constructor].
    + destruct IH as [[Hm Hf] | [Hm [x [[b [a [-> [Hx Hb]]]] Hf]]]].
      * left. now split.
      * right. split; [assumption|]. exists x. split; [|assumption].
        exists (t :: b), a. repeat split; [assumption | now constructor].
Qed.

(** C1. [filter_news] returns at most as many matched articles as
    there are input articles; stripped of their tickers, the matched
    articles are exactly the input articles that mention some ticker, in
    input order and once each (so an article mentioning no ticker is
    dropped); and the ticker attached to a matched article is the
    upper-casing of the first ticker of the list whose upper-casing occurs
    in the upper-cased title. *)
Theorem filter_news_first_match (articles : list Article) (tickers : list string) :
  List.length (filter_news upper articles tickers) <= List.length articles /\
  map m_article (filter_news upper articles tickers) =
    filter (mentions upper tickers) articles /\
  Forall (fun m => exists x, first_match upper tickers (m_title m) x /\
                             m_ticker m = upper x)
         (filter_news upper articles tickers).
Proof.
  induction articles as [|[title link] rest (Hlen & Hmap & Hall)].
  - repeat split; constructor.
  - rewrite filter_news_cons. cbn [filter].
    destruct (filter_news_tickers_cases title link tickers)
      as [[Hm ->] | [Hm (x & Hx & ->)]]; rewrite Hm; cbn [app List.length map].
    + repeat split; [lia | assumption | assumption].
    + repeat split; [lia | now rewrite Hmap |].
      constructor; [|assumption]. exists x. now split.
Qed.

End FilterNewsFacts.

(** ** Properties of strings *)

Lemma str_app_nil_r (s : string) : (s ++ "")%string = s.
Proof. induction s as [|c s IH]; simpl; [reflexivity | now rewrite IH]. Qed.

Lemma str_app_assoc (a b c : string) :
  ((a ++ b) ++ c)%string = (a ++ b ++ c)%string.
Proof. induction a as [|x a IH]; simpl; [reflexivity | now rewrite IH]. Qed.

Lemma str_app_length (a b : string) :
  String.length (a ++ b) = String.length a + String.length b.
Proof. induction a as [|x a IH]; simpl; [reflexivity | now rewrite IH]. Qed.

(** ** Properties of the computation monad *)

Section MonadFacts.

Context {World : Type}.

Lemma bind_ok {A B} (m : M World A) (k : A -> M World B) st a st' :
  m st = (Ok a, st') -> bind m k st = k a st'.
Proof. unfold bind. now intros ->. Qed.

Lemma bind_err {A B} (m : M World A) (k : A -> M World B) st e st' :
  m st = (Err e, st') -> bind m k st = (Err e, st').
Proof. unfold bind. now intros ->. Qed.

Lemma external_trace {A} ev (call : World -> (lib_exn + A) * World) st :
  trace (snd (external ev call st)) = trace st ++ [ev].
Proof.
  unfold external. destruct (call (world st)) as [[e|a] w']; reflexivity.
Qed.

End MonadFacts.

(** ** Properties of the news block *)

Section NewsBlockFacts.

Context {World : Type}.
Variable svc : Services World.
Variable lib : PyLib.

Local Open Scope py_scope.

(** A model request adds exactly one event, answered or not. *)
Lemma gpt_trace prompt model temp (st : State World) :
  trace (snd (gpt svc lib prompt model temp st)) =
  trace st ++ [NetChat model prompt temp].
Proof.
  unfold gpt, bind.
  pose proof (external_trace (NetChat model prompt temp)
                (chat_completions_create svc model prompt temp) st) as H.
  destruct (external _ _ st) as [[resp|e] st']; simpl in *; [|exact H].
  destruct resp as [|[c|] resp]; exact H.
Qed.

(** The [try]/[except] around the summary never raises. *)
Lemma summary_or_title_cases title link (st : State World) :
  match short_summary svc lib title link st with
  | (Ok s, st') => summary_or_title svc lib title link st = (Ok s, st')
  | (Err _, st') => summary_or_title svc lib title link st = (Ok title, st')
  end.
Proof.
  unfold summary_or_title, try_except.
  destruct (short_summary svc lib title link st) as [[s|e] st']; reflexivity.
Qed.

Lemma article_loop_summaries matched acc (st : State World) :
  article_loop svc lib matched acc st =
  (Ok (acc ++ PyStr.concat_all (rendered matched (fst (summaries svc lib matched st))))%string,
   snd (summaries svc lib matched st)).
Proof.
  revert acc st; induction matched as [|[[t title] link] rest IH]; intros acc st.
  - simpl. now rewrite str_app_nil_r.
  - cbn [article_loop summaries]. unfold m_title, m_link; cbn [fst snd].
    pose proof (summary_or_title_cases title link st) as H.
    destruct (short_summary svc lib title link st) as [[s|e] st1];
      rewrite (bind_ok _ _ _ _ _ H), IH;
      destruct (summaries svc lib rest st1) as [ss st2]; cbn [fst snd];
      unfold rendered, PyStr.concat_all;
      cbn [combine map fst snd fold_right m_ticker m_link];
      now rewrite str_app_assoc.
Qed.

Lemma summaries_length matched (st : State World) :
  List.length (fst (summaries svc lib matched st)) = List.length matched.
Proof.
  revert st; induction matched as [|m rest IH]; intros st; simpl; [reflexivity|].
  destruct (short_summary svc lib (m_title m) (m_link m) st) as [r st1].
  specialize (IH st1). destruct (summaries svc lib rest st1) as [ss st2].
  simpl in *. now rewrite IH.
Qed.

End NewsBlockFacts.

(** ** Properties of [build_newsletter] *)

Section BuildFacts.

Context {World : Type}.
Variable svc : Services World.
Variable lib : PyLib.

Lemma slice_to_6 {A} (l : list A) : slice_to 6 l = firstn 6 l.
Proof. reflexivity. Qed.

(** [build_newsletter] once the overview and the feed have arrived. *)
Lemma build_newsletter_news_stage tickers region (st st1 st2 : State World) macro news :
  macro_overview svc lib st = (Ok macro, st1) ->
  fetch_yahoo_news svc tickers 20 st1 = (Ok news, st2) ->
  build_newsletter svc lib tickers region st =
  bind (article_loop svc lib (slice_to 6 (filter_news (upper lib) news tickers)) "")
       (fun block => build_newsletter_finish svc lib macro region block tickers) st2.
Proof.
  intros Hm Hf. unfold build_newsletter.
  rewrite (bind_ok _ _ _ _ _ Hm). now rewrite (bind_ok _ _ _ _ _ Hf).
Qed.

Lemma article_loop_app l1 l2 acc (st : State World) :
  article_loop svc lib (l1 ++ l2) acc st =
  bind (article_loop svc lib l1 acc) (article_loop svc lib l2) st.
Proof.
  revert acc st; induction l1 as [|[[t title] link] l1 IH]; intros acc st.
  - reflexivity.
  - cbn [app article_loop]. unfold bind.
    destruct (summary_or_title svc lib title link st) as [[s|e] st1].
    + rewrite IH. reflexivity.
    + reflexivity.
Qed.

Lemma summaries_trace matched (st : State World) :
  List.length (trace (snd (summaries svc lib matched st))) =
  List.length (trace st) + List.length matched.
Proof.
  revert st; induction matched as [|m rest IH]; intros st; simpl; [lia|].
  pose proof (gpt_trace svc lib (summary_prompt (m_title m) (m_link m))
                "gpt-3.5-turbo" temp_default st) as Hg.
  fold (short_summary svc lib (m_title m) (m_link m)) in Hg.
  destruct (short_summary svc lib (m_title m) (m_link m) st) as [r st1].
  specialize (IH st1). destruct (summaries svc lib rest st1) as [ss st2].
  simpl in *. rewrite IH, Hg, length_app. simpl. lia.
Qed.

Lemma rendered_length matched ss :
  List.length ss = List.length matched ->
  List.length (rendered matched ss) = List.length matched.
Proof.
  intros H. unfold rendered. rewrite length_map, length_combine. lia.
Qed.

(** A block of entries is never the empty string, so the placeholder
    appears exactly when there is no entry. *)
Lemma news_highlights_rendered (l : list Matched) (st : State World) :
  news_highlights (PyStr.concat_all (rendered l (fst (summaries svc lib l st)))) =
  news_section_spec svc lib l st.
Proof.
  destruct l as [|m rest]; [reflexivity|].
  cbn [news_section_spec summaries].
  destruct (short_summary svc lib (m_title m) (m_link m) st) as [r st1].
  destruct (summaries svc lib rest st1) as [ss st2].
  reflexivity.
Qed.

(** The price stage when the prices arrive and the table is rendered. *)
Lemma build_newsletter_finish_ok macro region block tickers
      (st st' : State World) prices chart table_md :
  price_data svc lib tickers st = (Ok (prices, chart), st') ->
  last_row_markdown lib prices = inr table_md ->
  build_newsletter_finish svc lib macro region block tickers st =
  (Ok (document macro region table_md block, chart, prices), st').
Proof.
  intros Hp Ht. unfold build_newsletter_finish.
  rewrite (bind_ok _ _ _ _ _ Hp). cbn [fst snd].
  unfold bind, library, lift. now rewrite Ht.
Qed.

(** What a successful price stage returned. *)
Lemma build_newsletter_finish_inv macro region block tickers
      (st st' : State World) md chart prices :
  build_newsletter_finish svc lib macro region block tickers st =
    (Ok (md, chart, prices), st') ->
  price_data svc lib tickers st = (Ok (prices, chart), st') /\
  exists table_md,
    last_row_markdown lib prices = inr table_md /\
    md = document macro region table_md block.
Proof.
  unfold build_newsletter_finish, bind, library, lift.
  destruct (price_data svc lib tickers st) as [[[p c]|e] st1]; [|discriminate].
  cbn [fst snd]. destruct (last_row_markdown lib p) as [e|t] eqn:Ht; [discriminate|].
  unfold ret. intros [= <- <- <- <-]. split; [reflexivity|]. now exists t.
Qed.

(** A block that holds an entry is shown as it is. *)
Lemma news_highlights_shown (a b : string) c :
  news_highlights (a ++ String c b) = (a ++ String c b)%string.
Proof. destruct a; reflexivity. Qed.

(** C3. Let the overview and the feed have arrived, and let [a] be one of
    the articles the loop processes, [pre] those before it and [post]
    those after it. If the summary request for [a] raises, the loop goes
    on with [post] and no exception leaves it; the pipeline continues with
    the price stage; and when that stage delivers, [build_newsletter]
    returns the document whose news section holds, between the entries of
    [pre] and those of [post], the entry of [a] with the raw title of [a]
    as its summary. *)
Theorem summary_failure_falls_back_to_title
        tickers region (st st1 st2 st3 st4 : State World)
        macro news pre a post blk e :
  macro_overview svc lib st = (Ok macro, st1) ->
  fetch_yahoo_news svc tickers 20 st1 = (Ok news, st2) ->
  slice_to 6 (filter_news (upper lib) news tickers) = pre ++ a :: post ->
  article_loop svc lib pre "" st2 = (Ok blk, st3) ->
  short_summary svc lib (m_title a) (m_link a) st3 = (Err e, st4) ->
  exists rest st5,
    article_loop svc lib post "" st4 = (Ok rest, st5) /\
    build_newsletter svc lib tickers region st =
      build_newsletter_finish svc lib macro region
        (blk ++ entry (m_ticker a) (m_title a) (m_link a) ++ rest)%string tickers st5 /\
    forall prices chart st6 table_md,
      price_data svc lib tickers st5 = (Ok (prices, chart), st6) ->
      last_row_markdown lib prices = inr table_md ->
      build_newsletter svc lib tickers region st =
      (Ok (("## Macroeconomic Overview" ++ PyStr.nl ++ macro ++ PyStr.nl ++ PyStr.nl
            ++ "## Latest 30-day Close (last row) – " ++ region ++ PyStr.nl
            ++ table_md ++ PyStr.nl ++ PyStr.nl
            ++ "## News Highlights" ++ PyStr.nl
            ++ blk
            ++ "- **" ++ m_ticker a ++ "** " ++ m_title a ++ PyStr.nl
            ++ "  <" ++ m_link a ++ ">" ++ PyStr.nl
            ++ rest)%string,
           chart, prices),
       st6).
Proof.
  intros Hm Hf Hs Hpre Ha.
  exists (PyStr.concat_all (rendered post (fst (summaries svc lib post st4)))),
         (snd (summaries svc lib post st4)).
  split; [now rewrite article_loop_summaries|].
  assert (Hb : build_newsletter svc lib tickers region st =
               build_newsletter_finish svc lib macro region
                 (blk ++ entry (m_ticker a) (m_title a) (m_link a) ++
                  PyStr.concat_all (rendered post (fst (summaries svc lib post st4))))%string
                 tickers (snd (summaries svc lib post st4))).
  { rewrite (build_newsletter_news_stage _ _ _ _ _ _ _ Hm Hf), Hs.
    unfold bind at 1. rewrite article_loop_app.
    rewrite (bind_ok _ _ _ _ _ Hpre).
    destruct a as [[t title] link]. unfold m_ticker, m_title, m_link in *.
    cbn [fst snd] in *. cbn [article_loop].
    pose proof (summary_or_title_cases svc lib title link st3) as H.
    rewrite Ha in H. rewrite (bind_ok _ _ _ _ _ H).
    rewrite article_loop_summaries. now rewrite str_app_assoc. }
  split; [exact Hb|].
  intros prices chart st6 table_md Hp Ht.
  rewrite Hb, (build_newsletter_finish_ok _ _ _ _ _ _ _ _ _ Hp Ht).
  do 2 f_equal. unfold document, entry.
  rewrite !str_app_assoc. cbn [append].
  rewrite news_highlights_shown. reflexivity.
Qed.

(** C5, as the code has it. Whenever [build_newsletter] returns a
    document, its news-highlights section holds exactly one rendered entry
    (ticker, summary, link) for each of the first six matched articles, in
    matched order, and is the fixed placeholder when nothing matched: it is
    the section the specification describes, for the first six matched
    articles. *)
Theorem news_highlights_first_six
        tickers region (st st1 st2 st' : State World) macro news md chart prices :
  macro_overview svc lib st = (Ok macro, st1) ->
  fetch_yahoo_news svc tickers 20 st1 = (Ok news, st2) ->
  build_newsletter svc lib tickers region st = (Ok (md, chart, prices), st') ->
  exists table_md,
    last_row_markdown lib prices = inr table_md /\
    md = ("## Macroeconomic Overview" ++ PyStr.nl ++ macro ++ PyStr.nl ++ PyStr.nl
          ++ "## Latest 30-day Close (last row) – " ++ region ++ PyStr.nl
          ++ table_md ++ PyStr.nl ++ PyStr.nl
          ++ "## News Highlights" ++ PyStr.nl
          ++ news_section_spec svc lib
               (firstn 6 (filter_news (upper lib) news tickers)) st2)%string.
Proof.
  intros Hm Hf Hb.
  rewrite (build_newsletter_news_stage _ _ _ _ _ _ _ Hm Hf), slice_to_6 in Hb.
  unfold bind in Hb. rewrite article_loop_summaries in Hb. cbn [append] in Hb.
  apply build_newsletter_finish_inv in Hb. destruct Hb as (_ & table_md & Ht & ->).
  exists table_md. split; [exact Ht|].
  unfold document. now rewrite news_highlights_rendered.
Qed.

(** C10. Once the overview and the feed have arrived, the news block of
    [build_newsletter] is made of the entries of the first six matched
    articles, in matched order: at most six entries, [min 6 n] of them
    for [n] matched articles, with as many summary requests; the matched
    articles after the sixth leave no entry and cause no request. *)
Theorem build_newsletter_first_six
        tickers region (st st1 st2 : State World) macro news :
  macro_overview svc lib st = (Ok macro, st1) ->
  fetch_yahoo_news svc tickers 20 st1 = (Ok news, st2) ->
  let matched := filter_news (upper lib) news tickers in
  let shown := firstn 6 matched in
  let ss := fst (summaries svc lib shown st2) in
  let st3 := snd (summaries svc lib shown st2) in
  build_newsletter svc lib tickers region st =
    build_newsletter_finish svc lib macro region
      (PyStr.concat_all (rendered shown ss)) tickers st3 /\
  List.length (rendered shown ss) = Nat.min 6 (List.length matched) /\
  List.length (rendered shown ss) <= 6 /\
  List.length (trace st3) = List.length (trace st2) + Nat.min 6 (List.length matched).
Proof.
  intros Hm Hf matched shown ss st3.
  assert (Hlen : List.length shown = Nat.min 6 (List.length matched))
    by apply length_firstn.
  assert (Hr : List.length (rendered shown ss) = Nat.min 6 (List.length matched)).
  { rewrite rendered_length; [exact Hlen | apply summaries_length]. }
  repeat split.
  - rewrite (build_newsletter_news_stage _ _ _ _ _ _ _ Hm Hf), slice_to_6.
    unfold bind. now rewrite article_loop_summaries.
  - exact Hr.
  - rewrite Hr. apply Nat.le_min_l.
  - unfold st3. now rewrite summaries_trace, Hlen.
Qed.

End BuildFacts.

(** *** Runs in the small world *)

(** In the busy world the request for the second headline raises: the
    document carries the headline itself in that entry. *)
Lemma summary_failure_falls_back_to_title_witness :
  exists head rest chart prices,
    fst (build_newsletter Sim.services Sim.pylib ["AAPL"] "USA" (Sim.start Sim.busy)) =
    Ok ((head ++ "- **AAPL** AAPL story 2" ++ PyStr.nl
              ++ "  <http://n/2>" ++ PyStr.nl ++ rest)%string, chart, prices).
Proof.
  pose (pre := firstn 1 Sim.seven_matched).
  pose (a := ("AAPL", "AAPL story 2", "http://n/2") : Matched).
  pose (post := skipn 2 (firstn 6 Sim.seven_matched)).
  pose (r3 := article_loop Sim.services Sim.pylib pre "" Sim.busy_st2).
  pose (r4 := short_summary Sim.services Sim.pylib (m_title a) (m_link a) (snd r3)).
  pose (r5 := article_loop Sim.services Sim.pylib post "" (snd r4)).
  pose (r6 := price_data Sim.services Sim.pylib ["AAPL"] (snd r5)).
  destruct (summary_failure_falls_back_to_title Sim.services Sim.pylib
              ["AAPL"] "USA" (Sim.start Sim.busy) Sim.busy_st1 Sim.busy_st2
              (snd r3) (snd r4) Sim.busy_macro Sim.busy_news pre a post
              (Sim.value_or "" r3)
              (Raised_by_library (LibError "APIConnectionError" "Connection error.")))
    as (rest & st5 & Hloop & _ & Hdoc); [vm_compute; reflexivity ..|].
  assert (E5 : st5 = snd r5) by (unfold r5; now rewrite Hloop).
  assert (Er : rest = Sim.value_or "" r5) by (unfold r5, Sim.value_or; now rewrite Hloop).
  subst st5 rest.
  rewrite (Hdoc Sim.busy_prices Sim.busy_chart (snd r6) "AAPL");
    [|vm_compute; reflexivity ..].
  exists ("## Macroeconomic Overview" ++ PyStr.nl ++ Sim.busy_macro ++ PyStr.nl
          ++ PyStr.nl ++ "## Latest 30-day Close (last row) – USA" ++ PyStr.nl
          ++ "AAPL" ++ PyStr.nl ++ PyStr.nl ++ "## News Highlights" ++ PyStr.nl
          ++ Sim.value_or "" r3)%string,
         (Sim.value_or "" r5), Sim.busy_chart, Sim.busy_prices.
  vm_compute. reflexivity.
Defined.

(** In the busy world seven articles match and the document shows six
    entries, not one for each matched article. *)
Lemma news_highlights_seven_matched :
  ~ lists_every_matched Sim.services Sim.pylib ["AAPL"] "USA" (Sim.start Sim.busy).
Proof.
  intros H.
  assert (Hm : macro_overview Sim.services Sim.pylib (Sim.start Sim.busy) =
               (Ok Sim.busy_macro, Sim.busy_st1)) by (vm_compute; reflexivity).
  assert (Hf : fetch_yahoo_news Sim.services ["AAPL"] 20 Sim.busy_st1 =
               (Ok Sim.busy_news, Sim.busy_st2)) by (vm_compute; reflexivity).
  assert (Hb : build_newsletter Sim.services Sim.pylib ["AAPL"] "USA"
                 (Sim.start Sim.busy) =
               (Ok (fst (fst SimMore.busy_built), snd (fst SimMore.busy_built),
                    snd SimMore.busy_built), snd SimMore.busy_build))
    by (vm_compute; reflexivity).
  destruct (H _ _ _ _ _ _ _ _ Hm Hf Hb) as (table_md & Ht & Hmd).
  vm_compute in Ht. injection Ht as <-.
  vm_compute in Hmd. discriminate Hmd.
Qed.

(** The document of the busy world lists the first six of its seven
    matched articles. *)
Lemma news_highlights_first_six_witness :
  List.length (filter_news (upper Sim.pylib) Sim.busy_news ["AAPL"]) = 7 /\
  exists table_md,
    fst (fst SimMore.busy_built) =
    ("## Macroeconomic Overview" ++ PyStr.nl ++ Sim.busy_macro ++ PyStr.nl ++ PyStr.nl
     ++ "## Latest 30-day Close (last row) – " ++ "USA" ++ PyStr.nl
     ++ table_md ++ PyStr.nl ++ PyStr.nl
     ++ "## News Highlights" ++ PyStr.nl
     ++ news_section_spec Sim.services Sim.pylib
          (firstn 6 (filter_news (upper Sim.pylib) Sim.busy_news ["AAPL"]))
          Sim.busy_st2)%string.
Proof.
  split; [vm_compute; reflexivity|].
  destruct (news_highlights_first_six Sim.services Sim.pylib ["AAPL"] "USA"
              (Sim.start Sim.busy) Sim.busy_st1 Sim.busy_st2 (snd SimMore.busy_build)
              Sim.busy_macro Sim.busy_news
              (fst (fst SimMore.busy_built)) (snd (fst SimMore.busy_built))
              (snd SimMore.busy_built))
    as (table_md & _ & Hmd); [vm_compute; reflexivity ..|].
  exists table_md. exact Hmd.
Defined.

(** In the busy world seven articles match and six requests are made. *)
Lemma build_newsletter_first_six_witness :
  List.length (filter_news (upper Sim.pylib) Sim.busy_news ["AAPL"]) = 7 /\
  List.length
    (trace (snd (summaries Sim.services Sim.pylib
                   (firstn 6 (filter_news (upper Sim.pylib) Sim.busy_news ["AAPL"]))
                   Sim.busy_st2))) =
  List.length (trace Sim.busy_st2) + 6.
Proof.
  split; [vm_compute; reflexivity|].
  assert (Hm : macro_overview Sim.services Sim.pylib (Sim.start Sim.busy) =
               (Ok Sim.busy_macro, Sim.busy_st1)) by (vm_compute; reflexivity).
  assert (Hf : fetch_yahoo_news Sim.services ["AAPL"] 20 Sim.busy_st1 =
               (Ok Sim.busy_news, Sim.busy_st2)) by (vm_compute; reflexivity).
  pose proof (build_newsletter_first_six Sim.services Sim.pylib ["AAPL"] "USA"
                (Sim.start Sim.busy) Sim.busy_st1 Sim.busy_st2 Sim.busy_macro
                Sim.busy_news Hm Hf) as H.
  cbv zeta in H. destruct H as (_ & _ & _ & H). exact H.
Defined.

(** ** Properties of [send_newsletter] *)

Section DeliveryFacts.

Context {World : Type}.
Variable svc : Services World.

Lemma getenv_or_empty_missing name (st : State World) :
  getenv_or_empty svc name st =
  (Ok (match getenv svc (world st) name with Some v => v | None => "" end), st).
Proof. reflexivity. Qed.

(** C4. When the delivery credential is absent or empty,
    [send_newsletter] raises the configuration error and leaves the world
    and the trace as they were: no message was submitted, no network call
    made. The configuration error is raised in that case only. *)
Theorem send_newsletter_requires_credential to_email md_body img64 (st : State World) :
  (credential_missing svc (world st) = true ->
   send_newsletter svc to_email md_body img64 st =
   (Err (RuntimeError "SENDGRID_API_KEY not set"), st)) /\
  (fst (send_newsletter svc to_email md_body img64 st) =
   Err (RuntimeError "SENDGRID_API_KEY not set") ->
   credential_missing svc (world st) = true).
Proof.
  unfold credential_missing, send_newsletter, bind.
  rewrite getenv_or_empty_missing.
  destruct (getenv svc (world st) "SENDGRID_API_KEY") as [[|c key]|].
  - split; reflexivity.
  - split; [discriminate|].
    unfold external, print.
    destruct (sendgrid_send svc (String c key) _ (world st)) as [[e|r] w'];
      cbn; discriminate.
  - split; reflexivity.
Qed.

(** C9, as the code has it. On a successful delivery [send_newsletter]
    submits the message once, prints the service's status code, body and
    headers, and returns [None] to its caller. *)
Theorem send_newsletter_prints_response
        to_email md_body img64 (st : State World) key r w' :
  getenv svc (world st) "SENDGRID_API_KEY" = Some key ->
  key <> "" ->
  sendgrid_send svc key (mail_of to_email md_body img64) (world st) = (inr r, w') ->
  send_newsletter svc to_email md_body img64 st =
  (Ok None,
   {| world := w';
      trace := trace st ++ [NetSend key (mail_of to_email md_body img64);
                            Stdout (PInt (status_code r));
                            Stdout (PBytes (body r));
                            Stdout (PHeaders (headers r))] |}).
Proof.
  intros Hk Hne Hs. unfold send_newsletter, bind.
  rewrite getenv_or_empty_missing, Hk.
  destruct key as [|c key]; [congruence|].
  unfold external, print. rewrite Hs. cbn.
  now rewrite <- !app_assoc.
Qed.

End DeliveryFacts.

(** Without the credential nothing is sent. *)
Lemma send_newsletter_requires_credential_witness :
  send_newsletter Sim.services "reader@example.org" "hello" ""
                  (Sim.start Sim.unconfigured) =
  (Err (RuntimeError "SENDGRID_API_KEY not set"), Sim.start Sim.unconfigured).
Proof.
  apply (send_newsletter_requires_credential Sim.services
           "reader@example.org" "hello" "" (Sim.start Sim.unconfigured)).
  reflexivity.
Defined.

(** The mail is accepted and the caller receives no receipt. *)
Lemma send_newsletter_returns_none :
  ~ returns_receipt Sim.services "reader@example.org" "hello" ""
                    (Sim.start Sim.quiet).
Proof.
  intros H.
  specialize (H "SG.key" Sim.accepted (Sim.tick Sim.quiet) eq_refl).
  assert (Hne : "SG.key" <> "") by discriminate.
  specialize (H Hne eq_refl). vm_compute in H. discriminate H.
Qed.

Lemma send_newsletter_prints_response_witness :
  send_newsletter Sim.services "reader@example.org" "hello" "" (Sim.start Sim.quiet) =
  (Ok None,
   {| world := Sim.tick Sim.quiet;
      trace := [NetSend "SG.key" (mail_of "reader@example.org" "hello" "");
                Stdout (PInt 202); Stdout (PBytes ""); Stdout (PHeaders "Server: nginx")] |}).
Proof.
  apply (send_newsletter_prints_response Sim.services "reader@example.org" "hello" ""
           (Sim.start Sim.quiet) "SG.key" Sim.accepted (Sim.tick Sim.quiet)).
  - reflexivity.
  - discriminate.
  - reflexivity.
Defined.

(** ** Properties of [fetch_yahoo_news] *)

Section FeedFacts.

Context {World : Type}.
Variable svc : Services World.

Lemma entry_pairs_complete (es : list Entry) :
  forallb entry_complete es = true ->
  entry_pairs es = Ok (map entry_texts es).
Proof.
  induction es as [|e es IH]; [reflexivity|].
  cbn [forallb]. rewrite andb_true_iff. intros [He Hes].
  cbn [entry_pairs map]. rewrite (IH Hes).
  unfold entry_complete in He. unfold entry_pair, entry_texts.
  destruct (e_title e), (e_link e); try discriminate. reflexivity.
Qed.

(** C6, as the code has it. [fetch_yahoo_news] makes one feed request and
    does not look at the parser's bozo flag. It fails when the parser
    call itself raises, with that exception; when the parser returns a
    feed, flagged or not, whose first [n] entries each have a title and a
    link, it returns their (title, link) pairs in feed order without
    error, so a feed without entries gives the empty sequence. *)
Theorem fetch_yahoo_news_outcomes (tickers : list string) (n : Z) (st : State World) :
  let url := feed_url (PyStr.join "," tickers) in
  (forall e w',
      feedparser_parse svc url (world st) = (inl e, w') ->
      fetch_yahoo_news svc tickers n st =
      (Err (Raised_by_library e), after_call st (NetFeed url) w')) /\
  (forall f w',
      feedparser_parse svc url (world st) = (inr f, w') ->
      forallb entry_complete (slice_to n (entries f)) = true ->
      fetch_yahoo_news svc tickers n st =
      (Ok (map entry_texts (slice_to n (entries f))), after_call st (NetFeed url) w')) /\
  (forall f w',
      feedparser_parse svc url (world st) = (inr f, w') ->
      entries f = [] ->
      fetch_yahoo_news svc tickers n st = (Ok [], after_call st (NetFeed url) w')).
Proof.
  intros url.
  assert (Hgen : forall f w',
             feedparser_parse svc url (world st) = (inr f, w') ->
             forallb entry_complete (slice_to n (entries f)) = true ->
             fetch_yahoo_news svc tickers n st =
             (Ok (map entry_texts (slice_to n (entries f))),
              after_call st (NetFeed url) w')).
  { intros f w' Hp Hc. unfold fetch_yahoo_news, bind, external, lift.
    fold url. rewrite Hp. now rewrite (entry_pairs_complete _ Hc). }
  repeat split.
  - intros e w' Hp. unfold fetch_yahoo_news, bind, external. fold url.
    now rewrite Hp.
  - exact Hgen.
  - intros f w' Hp He. rewrite (Hgen f w' Hp); rewrite He.
    + unfold slice_to. destruct (0 <=? n)%Z; now rewrite firstn_nil.
    + unfold slice_to. destruct (0 <=? n)%Z; now rewrite firstn_nil.
Qed.

End FeedFacts.

(** The feed source cannot be reached and the news list is empty, without
    error. *)
Lemma fetch_yahoo_news_unreachable_feed :
  ~ fails_on_bad_feed Sim.services ["AAPL"] 20 (Sim.start Sim.offline).
Proof.
  intros H.
  destruct (H Sim.unreachable_feed (Sim.tick Sim.offline) eq_refl eq_refl) as [e He].
  vm_compute in He. discriminate He.
Qed.

Lemma fetch_yahoo_news_outcomes_witness :
  fetch_yahoo_news Sim.services ["AAPL"] 20 (Sim.start Sim.offline) =
  (Ok [], after_call (Sim.start Sim.offline)
                     (NetFeed (feed_url "AAPL")) (Sim.tick Sim.offline)).
Proof.
  apply (fetch_yahoo_news_outcomes Sim.services ["AAPL"] 20 (Sim.start Sim.offline))
    with (f := Sim.unreachable_feed); reflexivity.
Defined.

(** ** Properties of binary64 arithmetic *)

Section FloatFacts.

Local Open Scope Z_scope.

Lemma iter_pos_invariant {A} (P : A -> Prop) (f : A -> A) :
  (forall x, P x -> P (f x)) -> forall p x, P x -> P (iter_pos f p x).
Proof.
  intros Hf; induction p as [p IH|p IH|]; intros x Hx; simpl; auto.
Qed.

Lemma shr_1_nonneg mrs : 0 <= shr_m mrs -> 0 <= shr_m (shr_1 mrs).
Proof.
  destruct mrs as [m r s]; destruct m as [|[p|p|]|[p|p|]]; simpl; lia.
Qed.

Lemma shr_nonneg mrs e n : 0 <= shr_m mrs -> 0 <= shr_m (fst (shr mrs e n)).
Proof.
  intros H; destruct n as [|p|p]; simpl; try assumption.
  apply (iter_pos_invariant (fun x => 0 <= shr_m x)); [apply shr_1_nonneg | assumption].
Qed.

Lemma shr_record_of_loc_m m l : shr_m (shr_record_of_loc m l) = m.
Proof. destruct l as [|[]]; reflexivity. Qed.

Lemma shr_fexp_nonneg m e l :
  0 <= m -> 0 <= shr_m (fst (shr_fexp prec emax m e l)).
Proof.
  intros H. unfold shr_fexp. apply shr_nonneg. now rewrite shr_record_of_loc_m.
Qed.

Lemma round_nearest_even_nonneg m l : 0 <= m -> 0 <= round_nearest_even m l.
Proof.
  intros H; destruct l as [|[]]; simpl; try lia. destruct (Z.even m); lia.
Qed.

(** Rounding a non-negative mantissa gives a number. *)
Lemma binary_round_aux_notna s m e l :
  0 <= m -> isna (binary_round_aux prec emax s m e l) = false.
Proof.
  intros H. unfold binary_round_aux.
  pose proof (shr_fexp_nonneg m e l H) as H1.
  destruct (shr_fexp prec emax m e l) as [mrs' e']. simpl in H1.
  pose proof (shr_fexp_nonneg _ e' loc_Exact
                (round_nearest_even_nonneg _ (loc_of_shr_record mrs') H1)) as H2.
  destruct (shr_fexp prec emax _ e' loc_Exact) as [mrs'' e'']. simpl in H2.
  destruct (shr_m mrs'') as [|q|q]; [reflexivity | | lia].
  destruct (e'' <=? emax - prec); reflexivity.
Qed.

Lemma binary_normalize_notna m e s :
  isna (binary_normalize prec emax m e s) = false.
Proof.
  destruct m as [|q|q]; simpl; [reflexivity | |];
    unfold binary_round;
    destruct (shl_align _ _ _) as [mz ez];
    apply binary_round_aux_notna; lia.
Qed.

Lemma fmul_notna x sy my ey :
  isna x = false -> isna (fmul x (S754_finite sy my ey)) = false.
Proof.
  destruct x as [s|s| |s m e]; intros H; try reflexivity; try discriminate.
  apply binary_round_aux_notna; lia.
Qed.

Lemma rint_notna x : isna x = false -> isna (rint x) = false.
Proof.
  destruct x as [s|s| |s m e]; intros H; try reflexivity; try discriminate.
  unfold rint. destruct (0 <=? e); [reflexivity | apply binary_normalize_notna].
Qed.

Lemma div_eucl_div_mod a b : Z.div_eucl a b = (a / b, a mod b).
Proof.
  unfold Z.div, Z.modulo. now destruct (Z.div_eucl a b).
Qed.

Lemma fdiv_notna x sy my ey :
  isna x = false -> isna (fdiv x (S754_finite sy my ey)) = false.
Proof.
  destruct x as [s|s| |s m e]; intros H; try reflexivity; try discriminate.
  unfold fdiv, SFdiv, SFdiv_core_binary.
  set (e' := Z.min _ _). set (m' := match e - ey - e' with 0 => _ | _ => _ end).
  assert (Hm : 0 <= m').
  { unfold m'. destruct (e - ey - e'); try lia. apply Z.shiftl_nonneg. lia. }
  rewrite div_eucl_div_mod.
  apply binary_round_aux_notna. apply Z.div_pos; lia.
Qed.

Lemma float_of_Z_100 : float_of_Z 100 = S754_finite false 7036874417766400 (-46).
Proof. vm_compute. reflexivity. Qed.

Lemma float_of_Z_1 : float_of_Z 1 = S754_finite false 4503599627370496 (-52).
Proof. vm_compute. reflexivity. Qed.

(** Rounding to two decimals keeps a missing value missing and a value a
    value. *)
Lemma round2_isna x : isna (round2 x) = isna x.
Proof.
  unfold round2. rewrite float_of_Z_100.
  destruct (isna x) eqn:E.
  - destruct x; try discriminate. reflexivity.
  - apply fdiv_notna, rint_notna, fmul_notna, E.
Qed.

(** A finite non-zero number divided by itself is exactly one. *)
Lemma fdiv_self s m e :
  fdiv (S754_finite s m e) (S754_finite s m e) = float_of_Z 1.
Proof.
  unfold fdiv, SFdiv, SFdiv_core_binary.
  rewrite !Z.sub_diag.
  change (fexp prec emax 0) with (-53).
  change (Z.min (-53) 0) with (-53).
  change (0 - -53) with 53.
  cbv iota. rewrite Z.shiftl_mul_pow2 by lia.
  rewrite div_eucl_div_mod.
  rewrite Z.mul_comm, Z.div_mul, Z.mod_mul by lia.
  replace (new_location (Z.pos m) 0) with loc_Exact
    by (unfold new_location; destruct (Z.even (Z.pos m)); reflexivity).
  rewrite float_of_Z_1. destruct s; vm_compute; reflexivity.
Qed.

Lemma fsub_one_one : fsub (float_of_Z 1) (float_of_Z 1) = S754_zero false.
Proof. vm_compute. reflexivity. Qed.

End FloatFacts.

(** ** Properties of frames *)

Section FrameFacts.

Lemma nth_map_seq (f : nat -> bool) n i :
  nth i (map f (seq 0 n)) false = true -> f i = true.
Proof.
  intros H. destruct (Nat.lt_ge_cases i n) as [Hlt|Hge].
  - rewrite (nth_indep _ false (f 0)) in H by now rewrite length_map, length_seq.
    now rewrite map_nth, seq_nth in H.
  - rewrite nth_overflow in H by now rewrite length_map, length_seq.
    discriminate.
Qed.

(** Selecting by a mask whose marked positions hold values: the values
    selected are as many as the marks and none is missing. *)
Lemma select_marked (mask : list bool) (col : list float) :
  (forall i, nth i mask false = true -> isna (nth i col S754_nan) = false) ->
  List.length (select mask col) = List.length (filter (fun b => b) mask) /\
  Forall (fun v => isna v = false) (select mask col).
Proof.
  revert col; induction mask as [|b mask IH]; intros col H.
  - split; [reflexivity | constructor].
  - destruct col as [|x col].
    + assert (Hb : b = false).
      { destruct b; [|reflexivity]. specialize (H 0%nat eq_refl). discriminate. }
      subst b. destruct (IH [] ) as [IH1 _].
      { intros i Hi. specialize (H (S i) Hi). destruct i; discriminate. }
      cbn [select filter]. split; [|constructor].
      rewrite <- IH1. now destruct mask.
    + destruct (IH col (fun i Hi => H (S i) Hi)) as [IH1 IH2].
      pose proof (H 0%nat) as H0. cbn [nth] in H0.
      destruct b; cbn [select filter List.length].
      * split; [now rewrite IH1 | constructor; auto].
      * now split.
Qed.

Lemma select_index_length {A} (mask : list bool) (l : list A) :
  List.length mask = List.length l ->
  List.length (select mask l) = List.length (filter (fun b => b) mask).
Proof.
  revert l; induction mask as [|b mask IH]; intros [|x l] H;
    try discriminate; [reflexivity|].
  injection H as H. destruct b; cbn [select filter List.length]; now rewrite IH.
Qed.

(** After [dropna] the table is aligned. *)
Lemma dropna_aligned (f : Frame) : frame_aligned (dropna f).
Proof.
  unfold frame_aligned, dropna. cbn [f_index f_columns].
  set (cols := f_columns f).
  set (mask := map (row_complete cols) (seq 0 (List.length (f_index f)))).
  rewrite Forall_map. apply Forall_forall. intros c Hc. cbn [snd].
  rewrite (select_index_length mask (f_index f))
    by (unfold mask; now rewrite length_map, length_seq).
  apply select_marked. intros i Hi.
  apply nth_map_seq in Hi. unfold row_complete in Hi.
  rewrite forallb_forall in Hi. specialize (Hi c Hc).
  now apply negb_true_iff in Hi.
Qed.

Lemma frame_round_aligned (f : Frame) :
  frame_aligned f -> frame_aligned (frame_round f).
Proof.
  unfold frame_aligned, frame_round. cbn [f_index f_columns].
  intros H. rewrite Forall_map. revert H. apply Forall_impl.
  intros c [Hlen Hna]. cbn [snd]. split; [now rewrite length_map|].
  rewrite Forall_map. revert Hna. apply Forall_impl.
  intros v Hv. now rewrite round2_isna.
Qed.

Lemma dict_set_close_of df k v d :
  lookup_close df k = Ok v ->
  Forall (close_of df) d -> Forall (close_of df) (dict_set k v d).
Proof.
  intros Hk; induction 1 as [|[k' v'] d Hc Hd IH]; cbn [dict_set].
  - constructor; [exact Hk | constructor].
  - destruct (String.eqb k' k); constructor; auto.
Qed.

Lemma collect_closes_close_of df tickers closes0 closes :
  Forall (close_of df) closes0 ->
  collect_closes df tickers closes0 = Ok closes ->
  Forall (close_of df) closes.
Proof.
  revert closes0; induction tickers as [|t rest IH]; intros closes0 H0 H;
    cbn [collect_closes] in H.
  - now injection H as <-.
  - destruct (lookup_close df t) as [series|e] eqn:E.
    + apply (IH _ (dict_set_close_of df t series closes0 E H0) H).
    + destruct e; try discriminate. apply (IH _ H0 H).
Qed.

(** [lookup_close] raises nothing but KeyError, so the loop always ends
    with a dict. *)
Lemma collect_closes_total df tickers closes0 :
  exists closes, collect_closes df tickers closes0 = Ok closes.
Proof.
  revert closes0; induction tickers as [|t rest IH]; intros closes0;
    cbn [collect_closes]; [now eexists|].
  unfold lookup_close. destruct (existsb _ _); [|apply IH].
  destruct (find _ _); apply IH.
Qed.

End FrameFacts.

(** ** Properties of [price_data] *)

Section PriceFacts.

Context {World : Type}.
Variable svc : Services World.
Variable lib : PyLib.

(** What a successful [price_data_from] returns. *)
Lemma price_data_from_ok df tickers prices chart :
  price_data_from lib df tickers = Ok (prices, chart) ->
  exists closes,
    collect_closes df tickers [] = Ok closes /\
    prices = frame_round (dropna {| f_index := dl_index df; f_columns := closes |}).
Proof.
  unfold price_data_from. destruct (dl_empty df); [discriminate|].
  destruct (collect_closes df tickers []) as [closes|e]; [|discriminate].
  cbn [res_bind]. destruct closes as [|c closes]; [discriminate|].
  destruct (cumulative_return _) as [cum_ret|e]; [|discriminate].
  cbn [res_bind]. intros H. injection H as <- _. now eexists.
Qed.

Lemma price_data_ok tickers (st st' : State World) prices chart :
  price_data svc lib tickers st = (Ok (prices, chart), st') ->
  exists df w',
    yf_download svc tickers (world st) = (inr df, w') /\
    price_data_from lib df tickers = Ok (prices, chart).
Proof.
  unfold price_data, bind, external, lift.
  destruct (yf_download svc tickers (world st)) as [[e|df] w']; [discriminate|].
  intros H. injection H as H _. now exists df, w'.
Qed.

(** C7. Every price table [price_data] returns is aligned: each column
    has exactly one value per date of the table's index, so all columns
    have the same number of rows and share that index, and no value is
    missing. The dates are picked from the download's index by one mask,
    and every column holds the rounded closing prices of its ticker at
    the dates of that same mask. *)
Theorem price_data_aligned tickers (st st' : State World) prices chart :
  price_data svc lib tickers st = (Ok (prices, chart), st') ->
  frame_aligned prices /\
  exists df w' mask,
    yf_download svc tickers (world st) = (inr df, w') /\
    f_index prices = select mask (dl_index df) /\
    Forall (fun c => exists series,
                lookup_close df (fst c) = Ok series /\
                snd c = map round2 (select mask series))
           (f_columns prices).
Proof.
  intros H. destruct (price_data_ok _ _ _ _ _ H) as (df & w' & Hd & Hp).
  destruct (price_data_from_ok _ _ _ _ Hp) as (closes & Hc & ->).
  split; [apply frame_round_aligned, dropna_aligned|].
  exists df, w', (map (row_complete closes) (seq 0 (List.length (dl_index df)))).
  split; [exact Hd|]. split; [reflexivity|].
  cbn [frame_round dropna f_columns f_index]. rewrite !Forall_map.
  pose proof (collect_closes_close_of df tickers [] closes (Forall_nil _) Hc) as Hall.
  revert Hall. apply Forall_impl. intros c Hclose. cbn [fst snd].
  exists (snd c). split; [exact Hclose | reflexivity].
Qed.

End PriceFacts.

(** Two columns, one of them with a gap on the second of three days: the
    returned table keeps the first and the third day in both columns. *)
Lemma price_data_aligned_witness :
  frame_aligned SimMore.gappy_prices /\
  f_index SimMore.gappy_prices = [19723; 19725]%Z /\
  map (fun c => (fst c, List.length (snd c))) (f_columns SimMore.gappy_prices) =
    [("AAPL", 2); ("MSFT", 2)].
Proof.
  split; [|split; vm_compute; reflexivity].
  apply (price_data_aligned Sim.services Sim.pylib ["AAPL"; "MSFT"]
           (Sim.start SimMore.gappy) (snd SimMore.gappy_run)
           SimMore.gappy_prices SimMore.gappy_chart).
  vm_compute. reflexivity.
Defined.

(** C2 at a download the provider really delivers: two tickers requested,
    one unknown to the provider, which keeps its columns without values.
    The download is not empty and the known ticker has a closing series,
    yet [price_data] raises: the alignment leaves no row and [iloc[0]]
    fails with IndexError. *)
Theorem price_data_unknown_ticker_raises :
  dl_empty Sim.aapl_and_unknown = false /\
  lookup_close Sim.aapl_and_unknown "AAPL" = Ok [float_of_Z 187; float_of_Z 189] /\
  price_data_from Sim.pylib Sim.aapl_and_unknown ["AAPL"; "ZZZZ"] =
    Err (IndexError "single positional indexer is out-of-bounds") /\
  fst (price_data Sim.services Sim.pylib ["AAPL"; "ZZZZ"] (Sim.start Sim.half_known)) =
    Err (IndexError "single positional indexer is out-of-bounds").
Proof. repeat split; vm_compute; reflexivity. Qed.

(** ** Failure cases of [price_data_from] and the cumulative returns *)

Section ReturnFacts.

Variable lib : PyLib.

(** The three ways [price_data_from] fails: the two guards of the code,
    and a table that the alignment left without rows. *)
Lemma price_data_from_errors df tickers e :
  price_data_from lib df tickers = Err e ->
  (dl_empty df = true /\ e = ValueError "yfinance returned no data.") \/
  (collect_closes df tickers [] = Ok [] /\
   e = ValueError "No Close column in download.") \/
  (exists closes,
      collect_closes df tickers [] = Ok closes /\ closes <> [] /\
      f_index (dropna {| f_index := dl_index df; f_columns := closes |}) = [] /\
      e = IndexError "single positional indexer is out-of-bounds").
Proof.
  unfold price_data_from. destruct (dl_empty df); [intros [= <-]; now left|].
  destruct (collect_closes_total df tickers []) as [closes Hc]. rewrite Hc.
  cbn [res_bind]. destruct closes as [|c closes]; [intros [= <-]; right; now left|].
  unfold cumulative_return.
  destruct (f_index (dropna _)) eqn:E; cbn [res_bind]; [|discriminate].
  intros [= <-]. right; right. exists (c :: closes). repeat split; [discriminate | exact E].
Qed.

(** Away from that third case the tolerance for a subset of the tickers
    works: when the alignment leaves a row, [price_data_from] returns a
    table whose columns are the tickers that have a closing series, and a
    requested ticker without one is in no column. *)
Lemma price_data_from_subset df tickers closes :
  dl_empty df = false ->
  collect_closes df tickers [] = Ok closes ->
  closes <> [] ->
  f_index (dropna {| f_index := dl_index df; f_columns := closes |}) <> [] ->
  exists prices chart,
    price_data_from lib df tickers = Ok (prices, chart) /\
    map fst (f_columns prices) = map fst closes /\
    forall t e, lookup_close df t = Err e -> ~ In t (map fst (f_columns prices)).
Proof.
  intros He Hc Hne Hrows. unfold price_data_from. rewrite He, Hc. cbn [res_bind].
  destruct closes as [|c closes]; [congruence|].
  unfold cumulative_return.
  destruct (f_index (dropna _)) as [|d ds] eqn:E; [congruence|].
  cbn [res_bind]. eexists _, _. split; [reflexivity|].
  assert (Hk : map fst (f_columns (frame_round
                 (dropna {| f_index := dl_index df; f_columns := c :: closes |}))) =
               map fst (c :: closes)).
  { cbn [frame_round dropna f_columns]. rewrite !map_map. now apply map_ext. }
  split; [exact Hk|].
  intros t e Ht Hin. rewrite Hk in Hin. apply in_map_iff in Hin.
  destruct Hin as (c' & <- & Hc').
  pose proof (collect_closes_close_of df tickers [] _ (Forall_nil _) Hc) as Hall.
  rewrite Forall_forall in Hall. specialize (Hall c' Hc'). unfold close_of in Hall.
  congruence.
Qed.

Lemma cumulative_return_ok close_df cum_ret :
  cumulative_return close_df = Ok cum_ret ->
  first_row cum_ret =
  map (fun v => fsub (fdiv v v) (float_of_Z 1)) (first_row close_df) /\
  map fst (f_columns cum_ret) = map fst (f_columns close_df) /\
  f_index cum_ret = f_index close_df.
Proof.
  unfold cumulative_return. destruct (f_index close_df) as [|d ds] eqn:E; [discriminate|].
  intros [= <-]. unfold first_row. cbn [f_columns f_index]. rewrite !map_map.
  split; [|split].
  - apply map_ext. intros [name vals]. cbn [fst snd].
    (* a column without values has a missing first value on both sides *)
    destruct vals as [|v vals]; reflexivity.
  - apply map_ext. now intros [name vals].
  - now rewrite ?E.
Qed.

(** The first value of every column of an aligned table with a row. *)
Lemma first_row_values close_df v :
  frame_aligned close_df ->
  f_index close_df <> [] ->
  In v (first_row close_df) ->
  exists c rest, In c (f_columns close_df) /\ snd c = v :: rest.
Proof.
  intros Ha Hi Hin. unfold first_row in Hin. apply in_map_iff in Hin.
  destruct Hin as (c & <- & Hc). unfold frame_aligned in Ha.
  rewrite Forall_forall in Ha. destruct (Ha c Hc) as [Hlen _].
  unfold float in *. destruct (snd c) as [|x rest] eqn:E.
  - destruct (f_index close_df); [congruence | cbn in Hlen; discriminate Hlen].
  - exists c, rest. cbn [hd]. now split.
Qed.

(** C8. On an aligned table of closing prices with at least one row and
    no zero in its first row, the cumulative returns (each column divided
    by its first value, minus one) have the same columns and dates, and
    their first row is exactly zero in every column. *)
Theorem cumulative_return_first_row_zero close_df cum_ret :
  finite_prices close_df ->
  frame_aligned close_df ->
  f_index close_df <> [] ->
  Forall (fun v => is_zero v = false) (first_row close_df) ->
  cumulative_return close_df = Ok cum_ret ->
  Forall (fun v => v = S754_zero false) (first_row cum_ret) /\
  map fst (f_columns cum_ret) = map fst (f_columns close_df) /\
  f_index cum_ret = f_index close_df.
Proof.
  intros Hfin Ha Hi Hz H.
  destruct (cumulative_return_ok _ _ H) as (Hrow & Hcols & Hidx).
  split; [|now split]. rewrite Hrow, Forall_map.
  apply Forall_forall. intros v Hv.
  destruct (first_row_values _ _ Ha Hi Hv) as (c & rest & Hc & E).
  rewrite Forall_forall in Hz. specialize (Hz v Hv).
  unfold frame_aligned in Ha. rewrite Forall_forall in Ha.
  destruct (Ha c Hc) as [_ Hna]. rewrite E in Hna.
  unfold finite_prices in Hfin. rewrite Forall_forall in Hfin.
  specialize (Hfin c Hc). rewrite E in Hfin.
  apply Forall_inv in Hna. apply Forall_inv in Hfin.
  destruct v as [s|s| |s m e]; try discriminate.
  rewrite fdiv_self. apply fsub_one_one.
Qed.

End ReturnFacts.

Lemma cumulative_return_first_row_zero_witness :
  exists cum_ret,
    cumulative_return Sim.aapl_closes = Ok cum_ret /\
    Forall (fun v => v = S754_zero false) (first_row cum_ret).
Proof.
  eexists. split; [reflexivity|].
  apply (cumulative_return_first_row_zero Sim.aapl_closes).
  - repeat constructor.
  - repeat constructor.
  - discriminate.
  - repeat constructor.
  - reflexivity.
Defined.


(** * Further properties of the backend *)

(** ** [filter_news] *)

Section FilterNewsMore.

Variable upper : string -> string.

Lemma contains_empty (s : string) : PyStr.contains "" s = true.
Proof. destruct s; reflexivity. Qed.

(** An article that mentions no ticker adds nothing, one that mentions
    some adds one entry. *)
Lemma filter_news_tickers_mentions title link tickers :
  List.length (filter_news_tickers upper title link (map upper tickers) []) =
  if mentions upper tickers (title, link) then 1 else 0.
Proof.
  destruct (filter_news_tickers_cases upper title link tickers)
    as [[-> ->] | [-> (x & _ & ->)]]; reflexivity.
Qed.

(** X1. Filtering a feed given in two parts gives the matches of the first
    part followed by the matches of the second. *)
Theorem filter_news_app (a b : list Article) (tickers : list string) :
  filter_news upper (a ++ b) tickers =
  filter_news upper a tickers ++ filter_news upper b tickers.
Proof.
  induction a as [|[title link] a IH]; [reflexivity|].
  cbn [app]. rewrite !filter_news_cons, IH. apply app_assoc.
Qed.

Lemma filter_news_tickers_skip title link u up2 up3 acc :
  PyStr.contains u (upper title) = false ->
  filter_news_tickers upper title link (up2 ++ u :: up3) acc =
  filter_news_tickers upper title link (up2 ++ up3) acc.
Proof.
  intros Hu; induction up2 as [|v up2 IH]; cbn [app filter_news_tickers].
  - now rewrite Hu.
  - destruct (PyStr.contains v (upper title)); [reflexivity | exact IH].
Qed.

Lemma filter_news_tickers_repeat title link up1 u up2 up3 acc :
  filter_news_tickers upper title link (up1 ++ u :: up2 ++ u :: up3) acc =
  filter_news_tickers upper title link (up1 ++ u :: up2 ++ up3) acc.
Proof.
  induction up1 as [|v up1 IH]; cbn [app filter_news_tickers].
  - destruct (PyStr.contains u (upper title)) eqn:Hu; [reflexivity|].
    now apply filter_news_tickers_skip.
  - destruct (PyStr.contains v (upper title)); [reflexivity | exact IH].
Qed.

(** X2. A ticker whose upper-casing is that of a ticker earlier in the
    list (a repeated symbol, or the same symbol in another case) never
    changes the result: it can be removed from the list. *)
Theorem filter_news_repeated_ticker
        (articles : list Article) (t1 : list string) (t : string)
        (t2 : list string) (t' : string) (t3 : list string) :
  upper t' = upper t ->
  filter_news upper articles (t1 ++ t :: t2 ++ t' :: t3) =
  filter_news upper articles (t1 ++ t :: t2 ++ t3).
Proof.
  intros H. induction articles as [|[title link] rest IH]; [reflexivity|].
  rewrite !filter_news_cons, IH. f_equal.
  rewrite !map_app. cbn [map]. rewrite !map_app. cbn [map]. rewrite H.
  apply filter_news_tickers_repeat.
Qed.

(** X3. A ticker whose upper-casing is the empty string occurs in every
    title: with such a ticker in the list no article is dropped. *)
Theorem filter_news_empty_symbol
        (articles : list Article) (tickers : list string) (t : string) :
  In t tickers ->
  upper t = "" ->
  map m_article (filter_news upper articles tickers) = articles.
Proof.
  intros Hin Ht.
  assert (Hm : forall a, mentions upper tickers a = true).
  { intros a. unfold mentions. apply existsb_exists. exists t.
    split; [exact Hin|]. rewrite Ht. apply contains_empty. }
  induction articles as [|[title link] rest IH]; [reflexivity|].
  rewrite filter_news_cons, map_app, IH.
  destruct (filter_news_tickers_cases upper title link tickers)
    as [[Hf _] | [_ (x & _ & ->)]].
  - rewrite Hm in Hf. discriminate.
  - reflexivity.
Qed.

(** When no article mentions a ticker nothing is matched. *)
Lemma filter_news_none (articles : list Article) (tickers : list string) :
  forallb (fun a => negb (mentions upper tickers a)) articles = true ->
  filter_news upper articles tickers = [].
Proof.
  induction articles as [|[title link] rest IH]; [reflexivity|].
  cbn [forallb]. rewrite andb_true_iff, negb_true_iff. intros [Ha Hrest].
  rewrite filter_news_cons, (IH Hrest), app_nil_r.
  destruct (filter_news_tickers_cases upper title link tickers)
    as [[_ ->] | [Hf _]]; [reflexivity | congruence].
Qed.

End FilterNewsMore.

(** The same symbol in two cases. *)
Lemma filter_news_repeated_ticker_witness :
  filter_news PyStr.ascii_upper Sim.seven_news ["msft"; "aapl"; "AAPL"] =
  filter_news PyStr.ascii_upper Sim.seven_news ["msft"; "aapl"].
Proof.
  apply (filter_news_repeated_ticker PyStr.ascii_upper Sim.seven_news
           ["msft"] "aapl" [] "AAPL" []).
  reflexivity.
Defined.

(** An empty ticker field that reaches the filter matches everything. *)
Lemma filter_news_empty_symbol_witness :
  map m_article (filter_news PyStr.ascii_upper Sim.seven_news ["msft"; ""]) =
  Sim.seven_news.
Proof.
  apply (filter_news_empty_symbol PyStr.ascii_upper Sim.seven_news ["msft"; ""] "").
  - right. left. reflexivity.
  - reflexivity.
Defined.

(** ** [fetch_yahoo_news] *)

Section FeedMore.

Context {World : Type}.
Variable svc : Services World.

Lemma fetch_yahoo_news_run (tickers : list string) (n : Z) (st : State World) :
  fetch_yahoo_news svc tickers n st =
  match feedparser_parse svc (feed_url (PyStr.join "," tickers)) (world st) with
  | (inl e, w') =>
      (Err (Raised_by_library e),
       after_call st (NetFeed (feed_url (PyStr.join "," tickers))) w')
  | (inr f, w') =>
      (entry_pairs (slice_to n (entries f)),
       after_call st (NetFeed (feed_url (PyStr.join "," tickers))) w')
  end.
Proof.
  unfold fetch_yahoo_news, bind, external, lift.
  destruct (feedparser_parse svc _ (world st)) as [[e|f] w']; reflexivity.
Qed.

Lemma entry_pairs_ok (es : list Entry) (l : list Article) :
  entry_pairs es = Ok l -> l = map entry_texts es.
Proof.
  revert l; induction es as [|e es IH]; intros l; cbn [entry_pairs map].
  - now intros [= <-].
  - unfold entry_pair, entry_texts.
    destruct (e_title e) as [t|]; [|discriminate].
    destruct (e_link e) as [k|]; [|discriminate].
    cbn [res_bind]. destruct (entry_pairs es) as [rest|err]; [|discriminate].
    cbn [res_bind]. intros [= <-]. now rewrite (IH rest eq_refl).
Qed.

Lemma entry_pairs_incomplete (pre : list Entry) (e : Entry) (post : list Entry) :
  forallb entry_complete pre = true ->
  entry_complete e = false ->
  entry_pairs (pre ++ e :: post) =
  Err (AttributeError (match e_title e with None => "title" | Some _ => "link" end)).
Proof.
  intros Hpre He. induction pre as [|p pre IH]; cbn [app entry_pairs].
  - unfold entry_complete in He. unfold entry_pair.
    destruct (e_title e); [|reflexivity].
    destruct (e_link e); [discriminate | reflexivity].
  - cbn [forallb] in Hpre. apply andb_true_iff in Hpre. destruct Hpre as [Hp Hpre].
    unfold entry_complete in Hp. unfold entry_pair at 1.
    destruct (e_title p); [|discriminate]. destruct (e_link p); [|discriminate].
    cbn [res_bind]. now rewrite (IH Hpre).
Qed.

Lemma slice_to_length {A} (n : Z) (l : list A) :
  List.length (slice_to n l) <= List.length l /\
  (0 <= n -> Z.of_nat (List.length (slice_to n l)) <= n)%Z.
Proof.
  unfold slice_to. destruct (0 <=? n)%Z eqn:E; rewrite length_firstn; split; lia.
Qed.

(** X4. A successful [fetch_yahoo_news] returns the (title, link) pairs of
    the entries [feed.entries[:n]] in feed order: never more articles than
    the feed has entries and, for a limit [n] that is not negative, never
    more than [n]. *)
Theorem fetch_yahoo_news_at_most_n
        (tickers : list string) (n : Z) (st st' : State World) (news : list Article) :
  fetch_yahoo_news svc tickers n st = (Ok news, st') ->
  exists f w',
    feedparser_parse svc (feed_url (PyStr.join "," tickers)) (world st) = (inr f, w') /\
    news = map entry_texts (slice_to n (entries f)) /\
    List.length news <= List.length (entries f) /\
    (0 <= n -> Z.of_nat (List.length news) <= n)%Z.
Proof.
  rewrite fetch_yahoo_news_run.
  destruct (feedparser_parse svc _ (world st)) as [[e|f] w']; [discriminate|].
  intros [= H _]. exists f, w'. split; [reflexivity|].
  apply entry_pairs_ok in H. subst news. rewrite length_map.
  split; [reflexivity | apply slice_to_length].
Qed.

(** X5. When one of the first [n] entries of the feed lacks its title or
    its link, [fetch_yahoo_news] raises AttributeError for the first such
    entry (for the title when both are missing) and returns no article at
    all, not even those before it. *)
Theorem fetch_yahoo_news_incomplete_entry
        (tickers : list string) (n : Z) (st : State World)
        (f : Feed) (w' : World) (pre : list Entry) (e : Entry) (post : list Entry) :
  feedparser_parse svc (feed_url (PyStr.join "," tickers)) (world st) = (inr f, w') ->
  slice_to n (entries f) = pre ++ e :: post ->
  forallb entry_complete pre = true ->
  entry_complete e = false ->
  fst (fetch_yahoo_news svc tickers n st) =
  Err (AttributeError (match e_title e with None => "title" | Some _ => "link" end)).
Proof.
  intros Hp Hs Hpre He. rewrite fetch_yahoo_news_run, Hp, Hs. cbn [fst].
  now apply entry_pairs_incomplete.
Qed.

End FeedMore.

Lemma fetch_yahoo_news_at_most_n_witness :
  exists f,
    Sim.busy_news = map entry_texts (slice_to 20 (entries f)) /\
    (Z.of_nat (List.length Sim.busy_news) <= 20)%Z.
Proof.
  destruct (fetch_yahoo_news_at_most_n Sim.services ["AAPL"] 20 Sim.busy_st1
              Sim.busy_st2 Sim.busy_news) as (f & w' & _ & Hn & _ & Hb).
  - vm_compute. reflexivity.
  - exists f. split; [exact Hn | apply Hb; lia].
Defined.

Lemma fetch_yahoo_news_incomplete_entry_witness :
  fst (fetch_yahoo_news Sim.services ["AAPL"] 20 (Sim.start SimMore.broken_feed)) =
  Err (AttributeError "link").
Proof.
  apply (fetch_yahoo_news_incomplete_entry Sim.services ["AAPL"] 20
           (Sim.start SimMore.broken_feed) SimMore.broken_entries
           (Sim.tick SimMore.broken_feed)
           (firstn 1 (entries SimMore.broken_entries))
           {| e_title := Some "AAPL story 2"; e_link := None |}
           (skipn 2 (entries SimMore.broken_entries)));
    reflexivity.
Defined.

(** ** [price_data] *)

Section PriceMore.

Variable lib : PyLib.

Lemma mem_app x (k l : list string) : mem x (k ++ l) = mem x k || mem x l.
Proof. apply existsb_app. Qed.

Lemma mem_In x (l : list string) : mem x l = true <-> In x l.
Proof.
  unfold mem. rewrite existsb_exists. split.
  - intros (y & Hy & E). apply String.eqb_eq in E. now subst.
  - intros H. exists x. split; [exact H | apply String.eqb_refl].
Qed.

Lemma filter_all {A} (f : A -> bool) (l : list A) :
  (forall x, In x l -> f x = true) -> filter f l = l.
Proof.
  induction l as [|x l IH]; intros H; [reflexivity|]. cbn [filter].
  rewrite (H x (or_introl eq_refl)), IH; [reflexivity|].
  intros y Hy. apply H. now right.
Qed.

Lemma filter_twice {A} (f g : A -> bool) (l : list A) :
  filter f (filter g l) = filter (fun x => g x && f x) l.
Proof.
  induction l as [|x l IH]; [reflexivity|]. cbn [filter].
  destruct (g x); cbn [filter andb]; [destruct (f x)|]; now rewrite IH.
Qed.

(** The keys of a dict after an assignment. *)
Lemma dict_set_keys {V} (k : string) (v : V) (d : list (string * V)) :
  map fst (dict_set k v d) =
  if mem k (map fst d) then map fst d else map fst d ++ [k].
Proof.
  induction d as [|[k' v'] d IH]; [reflexivity|].
  cbn [dict_set map fst mem existsb]. fold (mem k (map fst d)).
  rewrite (String.eqb_sym k k').
  destruct (String.eqb k' k) eqn:E; cbn [map fst orb].
  - apply String.eqb_eq in E. now subst.
  - rewrite IH. now destruct (mem k (map fst d)).
Qed.

(** The keys of [closes] after the loop: those it had, then the requested
    tickers with a closing series that it did not have, each once, in order
    of first request. *)
Lemma collect_closes_keys df tickers acc closes :
  collect_closes df tickers acc = Ok closes ->
  map fst closes =
  map fst acc ++
  filter (fun y => negb (mem y (map fst acc)))
         (dedup (filter (has_close df) tickers)).
Proof.
  revert acc; induction tickers as [|t rest IH]; intros acc H;
    cbn [collect_closes] in H.
  - injection H as <-. cbn. now rewrite app_nil_r.
  - cbn [filter]. unfold has_close at 1.
    destruct (lookup_close df t) as [series|e] eqn:E.
    + rewrite (IH _ H), dict_set_keys. cbn [dedup filter].
      destruct (mem t (map fst acc)) eqn:M; cbn [negb].
      * f_equal. rewrite filter_twice. apply filter_ext. intros y.
        destruct (String.eqb y t) eqn:Ey; [|reflexivity].
        apply String.eqb_eq in Ey. subst y. now rewrite M.
      * rewrite <- app_assoc. cbn [app]. do 2 f_equal.
        rewrite filter_twice. apply filter_ext. intros y.
        rewrite mem_app. cbn [mem existsb]. rewrite orb_false_r.
        rewrite negb_orb. apply andb_comm.
    + destruct e; try discriminate. apply (IH _ H).
Qed.

Lemma dedup_In x (l : list string) : In x (dedup l) <-> In x l.
Proof.
  induction l as [|y l IH]; [reflexivity|]. cbn [dedup In].
  rewrite filter_In, IH, negb_true_iff, String.eqb_neq.
  destruct (String.eqb_spec y x) as [->|N]; [tauto|].
  split; [tauto|]. intros [H|H]; [tauto|]. right. split; [exact H|]. congruence.
Qed.

Lemma dedup_NoDup (l : list string) : NoDup (dedup l).
Proof.
  induction l as [|y l IH]; [constructor|]. cbn [dedup]. constructor.
  - rewrite filter_In, negb_true_iff, String.eqb_neq. tauto.
  - now apply NoDup_filter.
Qed.

Lemma collect_closes_columns df tickers closes :
  collect_closes df tickers [] = Ok closes ->
  map fst closes = dedup (filter (has_close df) tickers).
Proof.
  intros H. rewrite (collect_closes_keys _ _ _ _ H). cbn [map app].
  now apply filter_all.
Qed.

Lemma collect_closes_nil df tickers closes :
  collect_closes df tickers [] = Ok closes ->
  (closes = [] <-> forallb (fun t => negb (has_close df t)) tickers = true).
Proof.
  intros H. pose proof (collect_closes_columns _ _ _ H) as Hk.
  rewrite forallb_forall. split.
  - intros -> t Ht. destruct (has_close df t) eqn:E; [|reflexivity].
    assert (Hin : In t (dedup (filter (has_close df) tickers))).
    { apply dedup_In, filter_In. now split. }
    rewrite <- Hk in Hin. destruct Hin.
  - intros Hall. destruct closes as [|c closes]; [reflexivity|].
    assert (Hin : In (fst c) (dedup (filter (has_close df) tickers))).
    { rewrite <- Hk. now left. }
    apply dedup_In, filter_In in Hin. destruct Hin as [Hin E].
    specialize (Hall _ Hin). rewrite E in Hall. discriminate.
Qed.

Lemma frame_round_dropna_keys ix closes :
  map fst (f_columns (frame_round (dropna {| f_index := ix; f_columns := closes |}))) =
  map fst closes.
Proof.
  cbn [frame_round dropna f_columns]. rewrite !map_map. now apply map_ext.
Qed.

(** X6. The columns of a returned price table are the requested tickers
    that have a closing series in the download, each once however often
    it was requested, in the order in which they were first requested. *)
Theorem price_data_columns df tickers prices chart :
  price_data_from lib df tickers = Ok (prices, chart) ->
  map fst (f_columns prices) = dedup (filter (has_close df) tickers) /\
  NoDup (map fst (f_columns prices)).
Proof.
  intros H. destruct (price_data_from_ok lib _ _ _ _ H) as (closes & Hc & ->).
  rewrite frame_round_dropna_keys, (collect_closes_columns _ _ _ Hc).
  split; [reflexivity | apply dedup_NoDup].
Qed.

(** X7. [price_data] fails in exactly three cases once the download has
    arrived: the download is empty (ValueError), no requested ticker has a
    closing series (ValueError), or some has but every date lacks a value
    in some column, so that the alignment leaves no row (IndexError). *)
Theorem price_data_failure_cases df tickers e :
  price_data_from lib df tickers = Err e <->
  (dl_empty df = true /\ e = ValueError "yfinance returned no data.") \/
  (dl_empty df = false /\
   forallb (fun t => negb (has_close df t)) tickers = true /\
   e = ValueError "No Close column in download.") \/
  (dl_empty df = false /\
   forallb (fun t => negb (has_close df t)) tickers = false /\
   (exists closes,
       collect_closes df tickers [] = Ok closes /\
       f_index (dropna {| f_index := dl_index df; f_columns := closes |}) = []) /\
   e = IndexError "single positional indexer is out-of-bounds").
Proof.
  destruct (collect_closes_total df tickers []) as [closes Hc].
  pose proof (collect_closes_nil _ _ _ Hc) as Hnil.
  unfold price_data_from. rewrite Hc. cbn [res_bind].
  destruct (dl_empty df).
  { split; [intros [= <-]; now left|].
    intros [[_ ->] | [(D & _) | (D & _)]]; [reflexivity | discriminate ..]. }
  destruct closes as [|c closes].
  { assert (Hall : forallb (fun t => negb (has_close df t)) tickers = true)
      by now apply Hnil.
    split; [intros [= <-]; right; left; auto|].
    intros [[D _] | [(_ & _ & ->) | (_ & Hf & _)]];
      [discriminate | reflexivity | congruence]. }
  assert (Hsome : forallb (fun t => negb (has_close df t)) tickers = false).
  { apply not_true_iff_false. intros E. apply Hnil in E. discriminate. }
  unfold cumulative_return.
  destruct (f_index (dropna _)) as [|d ds] eqn:E; cbn [res_bind].
  - split.
    + intros [= <-]. right; right. repeat split; auto.
      exists (c :: closes). now split.
    + intros [[D _] | [(_ & Hf & _) | (_ & _ & _ & ->)]];
        [discriminate | congruence | reflexivity].
  - split; [discriminate|].
    intros [[D _] | [(_ & Hf & _) | (_ & _ & (closes' & Hc' & E') & _)]];
      [discriminate | congruence |].
    injection Hc' as <-. rewrite E in E'. discriminate.
Qed.

Lemma select_length_le {A} (mask : list bool) (l : list A) :
  List.length (select mask l) <= List.length l.
Proof.
  revert l; induction mask as [|b mask IH]; intros [|x l]; cbn [select List.length];
    try lia.
  specialize (IH l). destruct b; cbn [List.length]; lia.
Qed.

(** X8. A returned price table is never empty: it has at least one date
    and at least one column, and no more dates than the download. *)
Theorem price_data_not_empty df tickers prices chart :
  price_data_from lib df tickers = Ok (prices, chart) ->
  f_index prices <> [] /\
  f_columns prices <> [] /\
  List.length (f_index prices) <= List.length (dl_index df).
Proof.
  unfold price_data_from. destruct (dl_empty df); [discriminate|].
  destruct (collect_closes df tickers []) as [closes|e]; [|discriminate].
  cbn [res_bind]. destruct closes as [|c closes]; [discriminate|].
  unfold cumulative_return.
  destruct (f_index (dropna _)) as [|d ds] eqn:E; [discriminate|].
  cbn [res_bind]. intros [= <- _]. cbn [frame_round f_index f_columns].
  rewrite E. repeat split; try discriminate.
  rewrite <- E. cbn [dropna f_index f_columns]. apply select_length_le.
Qed.

Lemma select_all {A} (f : nat -> bool) (l : list A) (a : nat) :
  (forall i, a <= i < a + List.length l -> f i = true) ->
  select (map f (seq a (List.length l))) l = l.
Proof.
  revert a; induction l as [|x l IH]; intros a H; [reflexivity|].
  cbn [List.length seq map select]. rewrite (H a) by (cbn [List.length]; lia).
  f_equal. apply IH. intros i Hi. apply H. cbn [List.length]. lia.
Qed.

Lemma lookup_close_In df t series :
  lookup_close df t = Ok series ->
  exists key, In (key, series) (dl_columns df).
Proof.
  unfold lookup_close. destruct (existsb _ _); [|discriminate].
  destruct (find _ (dl_columns df)) as [c|] eqn:E; [|discriminate].
  intros [= <-]. apply find_some in E. destruct E as [E _].
  exists (fst c). now destruct c.
Qed.

(** X9. When every column of the download has a value for every date, the
    download is not empty and some requested ticker has a closing series,
    [price_data] succeeds and drops no date: the table has the download's
    index, and each column holds the closing series of its ticker rounded
    to two decimals. *)
Theorem price_data_complete_download df tickers :
  download_complete df ->
  dl_empty df = false ->
  existsb (has_close df) tickers = true ->
  exists prices chart,
    price_data_from lib df tickers = Ok (prices, chart) /\
    f_index prices = dl_index df /\
    Forall (fun c => exists series,
                lookup_close df (fst c) = Ok series /\
                snd c = map round2 series)
           (f_columns prices).
Proof.
  intros Hcomp He Hsome.
  destruct (collect_closes_total df tickers []) as [closes Hc].
  pose proof (collect_closes_close_of df tickers [] closes (Forall_nil _) Hc) as Hall.
  assert (Hcols : Forall (fun c => List.length (snd c) = List.length (dl_index df) /\
                                   Forall (fun v => isna v = false) (snd c)) closes).
  { revert Hall. apply Forall_impl. intros c Hclose.
    destruct (lookup_close_In _ _ _ Hclose) as [key Hin].
    unfold download_complete in Hcomp. rewrite Forall_forall in Hcomp.
    apply (Hcomp _ Hin). }
  assert (Hrow : forall i, i < List.length (dl_index df) -> row_complete closes i = true).
  { intros i Hi. unfold row_complete. apply forallb_forall. intros c Hin.
    rewrite Forall_forall in Hcols. destruct (Hcols c Hin) as [Hlen Hna].
    rewrite Forall_forall in Hna. apply negb_true_iff, Hna, nth_In.
    unfold float in *. lia. }
  assert (Hdrop : dropna {| f_index := dl_index df; f_columns := closes |} =
                  {| f_index := dl_index df; f_columns := closes |}).
  { unfold dropna. cbn [f_index f_columns]. f_equal.
    - apply select_all. intros i Hi. apply Hrow. lia.
    - transitivity (map (fun c : string * list float => c) closes); [|apply map_id].
      apply map_ext_in. intros c Hin.
      rewrite Forall_forall in Hcols. destruct (Hcols c Hin) as [Hlen _].
      unfold float in *. rewrite <- Hlen.
      rewrite select_all; [now destruct c|].
      intros i Hi. apply Hrow. lia. }
  assert (Hne : closes <> []).
  { intros ->.
    assert (E : forallb (fun t => negb (has_close df t)) tickers = true)
      by now apply (collect_closes_nil _ _ _ Hc).
    rewrite forallb_forall in E. apply existsb_exists in Hsome.
    destruct Hsome as (t & Ht & Hh). specialize (E t Ht). rewrite Hh in E.
    discriminate. }
  assert (Hix : dl_index df <> []).
  { unfold dl_empty in He. destruct (dl_index df); [discriminate | discriminate]. }
  unfold price_data_from. rewrite He, Hc. cbn [res_bind].
  destruct closes as [|c closes]; [congruence|].
  rewrite Hdrop. unfold cumulative_return. cbn [f_index].
  destruct (dl_index df) as [|d ds] eqn:E; [congruence|].
  cbn [res_bind]. eexists _, _. split; [reflexivity|].
  cbn [frame_round f_index f_columns]. split; [reflexivity|].
  rewrite Forall_map. revert Hall. apply Forall_impl. intros c' Hclose.
  cbn [fst snd]. exists (snd c'). now split.
Qed.

End PriceMore.

Lemma price_data_columns_witness :
  map fst (f_columns SimMore.aapl_twice_prices) = ["AAPL"].
Proof.
  apply (price_data_columns Sim.pylib Sim.aapl_two_days ["AAPL"; "NONE"; "AAPL"]
           SimMore.aapl_twice_prices SimMore.aapl_twice_chart).
  vm_compute. reflexivity.
Defined.

Lemma price_data_not_empty_witness :
  f_index SimMore.aapl_twice_prices <> [].
Proof.
  apply (price_data_not_empty Sim.pylib Sim.aapl_two_days ["AAPL"; "NONE"; "AAPL"]
           SimMore.aapl_twice_prices SimMore.aapl_twice_chart).
  vm_compute. reflexivity.
Defined.

Lemma price_data_complete_download_witness :
  exists prices chart,
    price_data_from Sim.pylib Sim.aapl_two_days ["AAPL"; "NONE"; "AAPL"] =
      Ok (prices, chart) /\
    f_index prices = dl_index Sim.aapl_two_days.
Proof.
  destruct (price_data_complete_download Sim.pylib Sim.aapl_two_days
              ["AAPL"; "NONE"; "AAPL"]) as (prices & chart & H1 & H2 & _).
  - repeat constructor.
  - reflexivity.
  - reflexivity.
  - now exists prices, chart.
Defined.

(** ** [build_newsletter] *)

Section BuildMore.

Context {World : Type}.
Variable svc : Services World.
Variable lib : PyLib.

Lemma emits_ret {A} P (a : A) : emits P (ret a : M World A).
Proof. intros st. exists []. now rewrite app_nil_r. Qed.

Lemma emits_raise {A} P e : emits P (raise e : M World A).
Proof. intros st. exists []. now rewrite app_nil_r. Qed.

Lemma emits_lift {A} P (r : result A) : emits P (lift r : M World A).
Proof. intros st. exists []. now rewrite app_nil_r. Qed.

Lemma emits_observe {A} P (f : World -> A) : emits P (observe f).
Proof. intros st. exists []. now rewrite app_nil_r. Qed.

Lemma emits_external {A} (P : Event -> bool) ev
      (call : World -> (lib_exn + A) * World) :
  P ev = true -> emits P (external ev call).
Proof.
  intros H st. exists [ev]. rewrite external_trace. cbn. now rewrite H.
Qed.

Lemma emits_bind {A B} P (m : M World A) (k : A -> M World B) :
  emits P m -> (forall a, emits P (k a)) -> emits P (bind m k).
Proof.
  intros Hm Hk st. unfold bind. destruct (Hm st) as (evs & Ht & Hp).
  destruct (m st) as [[a|e] st1]; cbn [snd] in *.
  - destruct (Hk a st1) as (evs' & Ht' & Hp'). exists (evs ++ evs').
    rewrite Ht', Ht, app_assoc, forallb_app, Hp, Hp'. now split.
  - now exists evs.
Qed.

Lemma emits_try_except {A} P (m : M World A) (h : exn -> M World A) :
  emits P m -> (forall e, emits P (h e)) -> emits P (try_except m h).
Proof.
  intros Hm Hh st. unfold try_except. destruct (Hm st) as (evs & Ht & Hp).
  destruct (m st) as [[a|e] st1]; cbn [snd] in *.
  - now exists evs.
  - destruct (Hh e st1) as (evs' & Ht' & Hp'). exists (evs ++ evs').
    rewrite Ht', Ht, app_assoc, forallb_app, Hp, Hp'. now split.
Qed.

Lemma emits_gpt prompt model temp : emits is_request (gpt svc lib prompt model temp).
Proof.
  unfold gpt. apply emits_bind; [now apply emits_external|].
  intros [|[c|] resp]; [apply emits_raise | apply emits_ret | apply emits_raise].
Qed.

Lemma emits_article_loop matched acc :
  emits is_request (article_loop svc lib matched acc).
Proof.
  revert acc; induction matched as [|[[t title] link] rest IH]; intros acc;
    cbn [article_loop]; [apply emits_ret|].
  apply emits_bind; [|intros s; apply IH].
  apply emits_try_except; [apply emits_gpt | intros e; apply emits_ret].
Qed.

Lemma emits_price_data tickers : emits is_request (price_data svc lib tickers).
Proof.
  unfold price_data. apply emits_bind; [now apply emits_external|].
  intros df. apply emits_lift.
Qed.

Lemma emits_build_newsletter (tickers : list string) (region : string) :
  emits is_request (build_newsletter svc lib tickers region).
Proof.
  unfold build_newsletter.
  apply emits_bind.
  { unfold macro_overview. apply emits_bind; [apply emits_observe|].
    intros today. apply emits_gpt. }
  intros macro. apply emits_bind.
  { unfold fetch_yahoo_news. apply emits_bind; [now apply emits_external|].
    intros f. apply emits_lift. }
  intros news. apply emits_bind; [apply emits_article_loop|].
  intros block. unfold build_newsletter_finish.
  apply emits_bind; [apply emits_price_data | intros pc].
  apply emits_bind; [apply emits_lift | intros table_md; apply emits_ret].
Qed.

(** X10. Whatever its outcome, [build_newsletter] only adds requests to
    the model, the feed and the price provider to the trace: it hands no
    message to the e-mail service and prints nothing. *)
Theorem build_newsletter_only_requests
        (tickers : list string) (region : string) (st : State World) :
  exists evs,
    trace (snd (build_newsletter svc lib tickers region st)) = trace st ++ evs /\
    forallb is_request evs = true /\
    forallb (fun ev => negb (is_send ev)) evs = true.
Proof.
  destruct (emits_build_newsletter tickers region st) as (evs & Ht & Hr).
  exists evs. repeat split; [exact Ht | exact Hr |].
  rewrite forallb_forall in *. intros ev Hin. specialize (Hr ev Hin).
  now destruct ev.
Qed.

Lemma summaries_events matched (st : State World) :
  trace (snd (summaries svc lib matched st)) =
  trace st ++ map summary_request matched.
Proof.
  revert st; induction matched as [|m rest IH]; intros st; cbn [summaries map].
  - now rewrite app_nil_r.
  - pose proof (gpt_trace svc lib (summary_prompt (m_title m) (m_link m))
                  "gpt-3.5-turbo" temp_default st) as Hg.
    fold (short_summary svc lib (m_title m) (m_link m)) in Hg.
    destruct (short_summary svc lib (m_title m) (m_link m) st) as [r st1].
    specialize (IH st1). destruct (summaries svc lib rest st1) as [ss st2].
    cbn [snd] in *. rewrite IH, Hg, <- app_assoc. reflexivity.
Qed.

Lemma price_data_trace tickers (st : State World) :
  trace (snd (price_data svc lib tickers st)) = trace st ++ [NetPrices tickers].
Proof.
  unfold price_data, bind, lift.
  pose proof (external_trace (NetPrices tickers) (yf_download svc tickers) st) as H.
  destruct (external _ _ st) as [[df|e] st1]; exact H.
Qed.

Lemma build_newsletter_finish_run macro region block tickers (st : State World) :
  fst (build_newsletter_finish svc lib macro region block tickers st) =
    match fst (price_data svc lib tickers st) with
    | Ok pc =>
        match last_row_markdown lib (fst pc) with
        | inr table_md => Ok (document macro region table_md block, snd pc, fst pc)
        | inl e => Err (Raised_by_library e)
        end
    | Err e => Err e
    end /\
  snd (build_newsletter_finish svc lib macro region block tickers st) =
    snd (price_data svc lib tickers st).
Proof.
  unfold build_newsletter_finish, bind, library, lift.
  destruct (price_data svc lib tickers st) as [[pc|e] st1]; cbn [fst snd];
    [|now split].
  destruct (last_row_markdown lib (fst pc)); now split.
Qed.

(** [build_newsletter] after the overview and the feed, in terms of the
    summaries of the first six matched articles. *)
Lemma build_newsletter_after_news tickers region (st st1 st2 : State World) macro news :
  macro_overview svc lib st = (Ok macro, st1) ->
  fetch_yahoo_news svc tickers 20 st1 = (Ok news, st2) ->
  build_newsletter svc lib tickers region st =
  build_newsletter_finish svc lib macro region
    (PyStr.concat_all
       (rendered (firstn 6 (filter_news (upper lib) news tickers))
          (fst (summaries svc lib (firstn 6 (filter_news (upper lib) news tickers)) st2))))
    tickers
    (snd (summaries svc lib (firstn 6 (filter_news (upper lib) news tickers)) st2)).
Proof.
  intros Hm Hf.
  rewrite (build_newsletter_news_stage _ _ _ _ _ _ _ _ _ Hm Hf), slice_to_6.
  unfold bind. now rewrite article_loop_summaries.
Qed.

(** X11. Once the overview and the feed have arrived, the external calls
    of [build_newsletter] are, in this order: the overview request to
    gpt-4o-mini, one feed request for all tickers, one summary request to
    gpt-3.5-turbo for each of the first six matched articles in matched
    order, and one price request, made after all summaries and whether or
    not they succeeded. *)
Theorem build_newsletter_request_order
        tickers region (st st1 st2 : State World) macro news :
  macro_overview svc lib st = (Ok macro, st1) ->
  fetch_yahoo_news svc tickers 20 st1 = (Ok news, st2) ->
  trace (snd (build_newsletter svc lib tickers region st)) =
  trace st ++
  [NetChat "gpt-4o-mini" (macro_prompt (today_strftime svc (world st))) temp_default;
   NetFeed (feed_url (PyStr.join "," tickers))] ++
  map summary_request (firstn 6 (filter_news (upper lib) news tickers)) ++
  [NetPrices tickers].
Proof.
  intros Hm Hf. rewrite (build_newsletter_after_news _ _ _ _ _ _ _ Hm Hf).
  destruct (build_newsletter_finish_run macro region
              (PyStr.concat_all
                 (rendered (firstn 6 (filter_news (upper lib) news tickers))
                    (fst (summaries svc lib
                            (firstn 6 (filter_news (upper lib) news tickers)) st2))))
              tickers
              (snd (summaries svc lib
                      (firstn 6 (filter_news (upper lib) news tickers)) st2)))
    as [_ ->].
  rewrite price_data_trace, summaries_events.
  assert (H2 : trace st2 = trace st1 ++ [NetFeed (feed_url (PyStr.join "," tickers))]).
  { pose proof (fetch_yahoo_news_run svc tickers 20 st1) as R. rewrite Hf in R.
    destruct (feedparser_parse svc _ (world st1)) as [[e|f] w'];
      injection R as _ ->; reflexivity. }
  assert (H1 : trace st1 = trace st ++
               [NetChat "gpt-4o-mini" (macro_prompt (today_strftime svc (world st)))
                        temp_default]).
  { pose proof (gpt_trace svc lib (macro_prompt (today_strftime svc (world st)))
                  "gpt-4o-mini" temp_default st) as G.
    unfold macro_overview, bind, observe in Hm.
    rewrite Hm in G. exact G. }
  rewrite H2, H1, <- !app_assoc. reflexivity.
Qed.

(** X12. [build_newsletter] fails in exactly four cases, each time with
    the exception of the step that failed: the overview request fails; or
    the feed request fails; or the price stage fails, after the summaries
    of the first six matched articles were requested; or, after the price
    stage, rendering the last row of the price table with [to_markdown]
    fails. No failure of a summary request is ever among its errors. *)
Theorem build_newsletter_failure_cases tickers region (st : State World) e :
  fst (build_newsletter svc lib tickers region st) = Err e <->
  fst (macro_overview svc lib st) = Err e \/
  (exists macro st1,
      macro_overview svc lib st = (Ok macro, st1) /\
      fst (fetch_yahoo_news svc tickers 20 st1) = Err e) \/
  (exists macro st1 news st2,
      macro_overview svc lib st = (Ok macro, st1) /\
      fetch_yahoo_news svc tickers 20 st1 = (Ok news, st2) /\
      fst (price_data svc lib tickers
             (snd (summaries svc lib
                     (firstn 6 (filter_news (upper lib) news tickers)) st2))) = Err e) \/
  (exists macro st1 news st2 prices chart st4 cause,
      macro_overview svc lib st = (Ok macro, st1) /\
      fetch_yahoo_news svc tickers 20 st1 = (Ok news, st2) /\
      price_data svc lib tickers
        (snd (summaries svc lib
                (firstn 6 (filter_news (upper lib) news tickers)) st2)) =
        (Ok (prices, chart), st4) /\
      last_row_markdown lib prices = inl cause /\
      e = Raised_by_library cause).
Proof.
  destruct (macro_overview svc lib st) as [[macro|e0] st1] eqn:Hm.
  2:{ unfold build_newsletter. rewrite (bind_err _ _ _ _ _ Hm). cbn [fst]. split.
      - intros [= <-]. now left.
      - intros [[= <-] | [(m & s1 & H & _) | [(m & s1 & n & s2 & H & _)
                 | (m & s1 & n & s2 & p & c & s4 & le & H & _)]]];
          [reflexivity | discriminate ..]. }
  destruct (fetch_yahoo_news svc tickers 20 st1) as [[news|e1] st2] eqn:Hf.
  2:{ unfold build_newsletter. rewrite (bind_ok _ _ _ _ _ Hm), (bind_err _ _ _ _ _ Hf).
      cbn [fst]. split.
      - intros [= <-]. right; left. exists macro, st1. split; [reflexivity|].
        now rewrite Hf.
      - intros [H | [(m & s1 & [= <- <-] & H) | [(m & s1 & n & s2 & [= <- <-] & H & _)
                 | (m & s1 & n & s2 & p & c & s4 & le & [= <- <-] & H & _)]]].
        + discriminate.
        + rewrite Hf in H. now injection H as <-.
        + rewrite Hf in H. discriminate.
        + rewrite Hf in H. discriminate. }
  rewrite (build_newsletter_after_news _ _ _ _ _ _ _ Hm Hf).
  destruct (build_newsletter_finish_run macro region
              (PyStr.concat_all
                 (rendered (firstn 6 (filter_news (upper lib) news tickers))
                    (fst (summaries svc lib
                            (firstn 6 (filter_news (upper lib) news tickers)) st2))))
              tickers
              (snd (summaries svc lib
                      (firstn 6 (filter_news (upper lib) news tickers)) st2)))
    as [-> _].
  destruct (price_data svc lib tickers
              (snd (summaries svc lib
                      (firstn 6 (filter_news (upper lib) news tickers)) st2)))
    as [[[prices chart]|e2] st4] eqn:Hp; cbn [fst snd].
  - destruct (last_row_markdown lib prices) as [cause|table_md] eqn:Ht.
    + split.
      * intros [= <-]. right; right; right.
        exists macro, st1, news, st2, prices, chart, st4, cause.
        repeat split; assumption.
      * intros [H | [(m & s1 & [= <- <-] & H) | [(m & s1 & n & s2 & [= <- <-] & H & Hp')
                 | (m & s1 & n & s2 & p & c & s4 & le & [= <- <-] & H & Hp' & Ht' & ->)]]].
        -- discriminate.
        -- rewrite Hf in H. discriminate.
        -- rewrite Hf in H. injection H as <- <-. rewrite Hp in Hp'. discriminate.
        -- rewrite Hf in H. injection H as <- <-. rewrite Hp in Hp'.
           injection Hp' as <- <- <-. rewrite Ht in Ht'. now injection Ht' as <-.
    + split; [discriminate|].
      intros [H | [(m & s1 & [= <- <-] & H) | [(m & s1 & n & s2 & [= <- <-] & H & Hp')
                 | (m & s1 & n & s2 & p & c & s4 & le & [= <- <-] & H & Hp' & Ht' & ->)]]].
      * discriminate.
      * rewrite Hf in H. discriminate.
      * rewrite Hf in H. injection H as <- <-. rewrite Hp in Hp'. discriminate.
      * rewrite Hf in H. injection H as <- <-. rewrite Hp in Hp'.
        injection Hp' as <- <- <-. rewrite Ht in Ht'. discriminate.
  - split.
    + intros [= <-]. right; right; left. exists macro, st1, news, st2.
      repeat split; try assumption. now rewrite Hp.
    + intros [H | [(m & s1 & [= <- <-] & H) | [(m & s1 & n & s2 & [= <- <-] & H & Hp')
                 | (m & s1 & n & s2 & p & c & s4 & le & [= <- <-] & H & Hp' & _)]]].
      * discriminate.
      * rewrite Hf in H. discriminate.
      * rewrite Hf in H. injection H as <- <-. rewrite Hp in Hp'.
        now injection Hp' as <-.
      * rewrite Hf in H. injection H as <- <-. rewrite Hp in Hp'. discriminate.
Qed.

(** X13. When no article of the feed mentions a ticker, no summary is
    requested: the pipeline goes from the feed straight to the price
    stage, and every document [build_newsletter] returns then ends, under
    the news heading, with the line No relevant news today. and nothing
    else. *)
Theorem build_newsletter_no_mention
        tickers region (st st1 st2 : State World) macro news :
  macro_overview svc lib st = (Ok macro, st1) ->
  fetch_yahoo_news svc tickers 20 st1 = (Ok news, st2) ->
  forallb (fun a => negb (mentions (upper lib) tickers a)) news = true ->
  build_newsletter svc lib tickers region st =
    build_newsletter_finish svc lib macro region "" tickers st2 /\
  forall md chart prices st',
    build_newsletter svc lib tickers region st = (Ok (md, chart, prices), st') ->
    price_data svc lib tickers st2 = (Ok (prices, chart), st') /\
    exists table_md,
      last_row_markdown lib prices = inr table_md /\
      md = ("## Macroeconomic Overview" ++ PyStr.nl ++ macro ++ PyStr.nl ++ PyStr.nl
            ++ "## Latest 30-day Close (last row) – " ++ region ++ PyStr.nl
            ++ table_md ++ PyStr.nl ++ PyStr.nl
            ++ "## News Highlights" ++ PyStr.nl
            ++ "No relevant news today.")%string.
Proof.
  intros Hm Hf Hn.
  assert (Hb : build_newsletter svc lib tickers region st =
               build_newsletter_finish svc lib macro region "" tickers st2).
  { rewrite (build_newsletter_news_stage _ _ _ _ _ _ _ _ _ Hm Hf).
    now rewrite (filter_news_none _ _ _ Hn). }
  split; [exact Hb|].
  intros md chart prices st' H. rewrite Hb in H.
  apply build_newsletter_finish_inv in H.
  destruct H as (Hp & table_md & Ht & ->).
  split; [exact Hp|]. exists table_md. split; [exact Ht|].
  unfold document. rewrite ?str_app_assoc. reflexivity.
Qed.

End BuildMore.

(** The nine requests of the busy world, in order. *)
Lemma build_newsletter_request_order_witness :
  trace (snd (build_newsletter Sim.services Sim.pylib ["AAPL"] "USA"
                (Sim.start Sim.busy))) =
  [NetChat "gpt-4o-mini" (macro_prompt "January 02, 2024") temp_default;
   NetFeed (feed_url "AAPL")] ++
  map summary_request (firstn 6 Sim.seven_matched) ++
  [NetPrices ["AAPL"]].
Proof.
  assert (Hm : macro_overview Sim.services Sim.pylib (Sim.start Sim.busy) =
               (Ok Sim.busy_macro, Sim.busy_st1)) by (vm_compute; reflexivity).
  assert (Hf : fetch_yahoo_news Sim.services ["AAPL"] 20 Sim.busy_st1 =
               (Ok Sim.busy_news, Sim.busy_st2)) by (vm_compute; reflexivity).
  rewrite (build_newsletter_request_order Sim.services Sim.pylib ["AAPL"] "USA"
             (Sim.start Sim.busy) Sim.busy_st1 Sim.busy_st2 Sim.busy_macro
             Sim.busy_news Hm Hf).
  vm_compute. reflexivity.
Defined.

(** No headline of the busy world mentions MSFT: the newsletter about
    MSFT carries the placeholder. *)
Lemma build_newsletter_no_mention_witness :
  exists table_md,
    fst (fst SimMore.unmentioned_built) =
    ("## Macroeconomic Overview" ++ PyStr.nl ++ SimMore.unmentioned_macro
     ++ PyStr.nl ++ PyStr.nl
     ++ "## Latest 30-day Close (last row) – " ++ "USA" ++ PyStr.nl
     ++ table_md ++ PyStr.nl ++ PyStr.nl
     ++ "## News Highlights" ++ PyStr.nl
     ++ "No relevant news today.")%string.
Proof.
  destruct (build_newsletter_no_mention Sim.services Sim.pylib ["MSFT"] "USA"
              (Sim.start SimMore.unmentioned) SimMore.unmentioned_st1
              SimMore.unmentioned_st2 SimMore.unmentioned_macro
              SimMore.unmentioned_news) as [_ H]; [vm_compute; reflexivity ..|].
  destruct (H (fst (fst SimMore.unmentioned_built))
              (snd (fst SimMore.unmentioned_built))
              (snd SimMore.unmentioned_built) (snd SimMore.unmentioned_build))
    as (_ & table_md & _ & Hmd); [vm_compute; reflexivity|].
  exists table_md. exact Hmd.
Defined.

(** ** [send_newsletter] *)

Section DeliveryMore.

Context {World : Type}.
Variable svc : Services World.

(** X14. Whatever its outcome, [send_newsletter] hands at most one message
    to the e-mail service (it never retries), that message is the one built
    from its arguments for the given recipient, and it makes no request to
    the model, the feed or the price provider. *)
Theorem send_newsletter_single_submission
        (to_email md_body img64 : string) (st : State World) :
  exists evs,
    trace (snd (send_newsletter svc to_email md_body img64 st)) = trace st ++ evs /\
    List.length (filter is_send evs) <= 1 /\
    (forall key msg, In (NetSend key msg) evs ->
                     msg = mail_of to_email md_body img64 /\
                     getenv svc (world st) "SENDGRID_API_KEY" = Some key) /\
    forallb (fun ev => negb (is_request ev)) evs = true.
Proof.
  unfold send_newsletter, bind. rewrite getenv_or_empty_missing.
  destruct (getenv svc (world st) "SENDGRID_API_KEY") as [[|c key]|] eqn:Hk.
  - exists []. split; [cbn; now rewrite app_nil_r|].
    split; [cbn; lia|]. split; [intros ? ? []|reflexivity].
  - unfold external, print.
    destruct (sendgrid_send svc (String c key) _ (world st)) as [[e|r] w'];
      cbn [snd trace].
    + exists [NetSend (String c key) (mail_of to_email md_body img64)].
      split; [reflexivity|]. split; [cbn; lia|]. split; [|reflexivity].
      intros k msg [[= <- <-]|[]]. now split.
    + exists [NetSend (String c key) (mail_of to_email md_body img64);
              Stdout (PInt (status_code r)); Stdout (PBytes (body r));
              Stdout (PHeaders (headers r))].
      split; [now rewrite <- !app_assoc|]. split; [cbn; lia|].
      split; [|reflexivity].
      intros k msg [[= <- <-]|[[=]|[[=]|[[=]|[]]]]]. now split.
  - exists []. split; [cbn; now rewrite app_nil_r|].
    split; [cbn; lia|]. split; [intros ? ? []|reflexivity].
Qed.

(** X15. When the e-mail service rejects the message, [send_newsletter]
    raises the service's exception after that one submission and prints
    nothing. *)
Theorem send_newsletter_rejected
        (to_email md_body img64 : string) (st : State World) key e w' :
  getenv svc (world st) "SENDGRID_API_KEY" = Some key ->
  key <> "" ->
  sendgrid_send svc key (mail_of to_email md_body img64) (world st) = (inl e, w') ->
  send_newsletter svc to_email md_body img64 st =
  (Err (Raised_by_library e),
   after_call st (NetSend key (mail_of to_email md_body img64)) w').
Proof.
  intros Hk Hne Hs. unfold send_newsletter, bind.
  rewrite getenv_or_empty_missing, Hk.
  destruct key as [|c key]; [congruence|].
  unfold external. now rewrite Hs.
Qed.

End DeliveryMore.

Lemma send_newsletter_rejected_witness :
  fst (send_newsletter Sim.services "reader@example.org" "hello" ""
         (Sim.start SimMore.rejecting)) =
  Err (Raised_by_library (LibError "ForbiddenError" "HTTP Error 403: Forbidden")).
Proof.
  rewrite (send_newsletter_rejected Sim.services "reader@example.org" "hello" ""
             (Sim.start SimMore.rejecting) "SG.key"
             (LibError "ForbiddenError" "HTTP Error 403: Forbidden")
             (Sim.tick SimMore.rejecting)).
  - reflexivity.
  - reflexivity.
  - discriminate.
  - reflexivity.
Defined.

(** ** The message body *)

Section HtmlMore.




End HtmlMore.


(** * Properties of the front end *)

Section FrontEndFacts.

Context {World : Type}.
Variable svc : Services World.
Variable lib : PyLib.
Variable web : WebServices World.
Variable w : Widgets.

(** A run from a session that is absent or holds three texts reaches the
    buttons with the fields' texts in the session. *)
Lemma script_after_fields (u : UiState World) :
  session_ready u ->
  script svc lib web w u = buttons svc lib web w (after_fields w u).
Proof.
  unfold session_ready, after_fields, typed_tickers, session_of.
  intros H. unfold script, buttons.
  unfold ubind at 1 2 3 4. unfold show at 1 2. cbn [backend page session_tickers].
  unfold init_session. cbn [session_tickers].
  destruct (session_tickers u) as [l|] eqn:E.
  - destruct l as [|a [|b [|c [|d l]]]]; try discriminate.
    cbn [ticker_inputs]. unfold ubind at 1 2 3, ticker_input, set_session, uret.
    cbn [session_tickers backend page nth_error list_update nth].
    rewrite <- app_assoc. reflexivity.
  - unfold set_session at 1. cbn [session_tickers backend page].
    cbn [ticker_inputs]. unfold ubind at 1 2 3, ticker_input, set_session, uret.
    cbn [session_tickers backend page nth_error list_update nth].
    rewrite <- app_assoc. reflexivity.
Qed.

Lemma uemits_uret {A} P (a : A) : uemits P (uret a : U World A).
Proof. intros u. exists []. now rewrite app_nil_r. Qed.

Lemma uemits_stop {A} P : uemits P (stop : U World A).
Proof. intros u. exists []. now rewrite app_nil_r. Qed.

Lemma uemits_crash {A} P e : uemits P (crash e : U World A).
Proof. intros u. exists []. now rewrite app_nil_r. Qed.

Lemma uemits_show P ev : uemits P (show ev : U World unit).
Proof. intros u. exists []. cbn. now rewrite app_nil_r. Qed.

Lemma uemits_set_session P l : uemits P (set_session l : U World unit).
Proof. intros u. exists []. cbn. now rewrite app_nil_r. Qed.

Lemma uemits_web_call {A} P ev (call : World -> (lib_exn + A) * World) :
  uemits P (web_call ev call).
Proof.
  intros u. exists []. unfold web_call.
  destruct (call (world (backend u))) as [[e|a] w']; cbn; now rewrite app_nil_r.
Qed.

Lemma uemits_run_backend {A} P (m : M World A) :
  emits P m -> uemits P (run_backend m).
Proof.
  intros H u. destruct (H (backend u)) as (evs & Ht & Hp). exists evs.
  unfold run_backend. destruct (m (backend u)) as [[a|e] st']; cbn in *; now split.
Qed.

Lemma uemits_ubind {A B} P (m : U World A) (k : A -> U World B) :
  uemits P m -> (forall a, uemits P (k a)) -> uemits P (ubind m k).
Proof.
  intros Hm Hk u. unfold ubind. destruct (Hm u) as (evs & Ht & Hp).
  destruct (m u) as [[a| |e] u1]; cbn [snd] in *.
  - destruct (Hk a u1) as (evs' & Ht' & Hp'). exists (evs ++ evs').
    rewrite Ht', Ht, app_assoc, forallb_app, Hp, Hp'. now split.
  - now exists evs.
  - now exists evs.
Qed.

Lemma uemits_try_exception {A} P (m : U World A) (h : exn -> U World A) :
  uemits P m -> (forall e, uemits P (h e)) -> uemits P (try_exception m h).
Proof.
  intros Hm Hh u. unfold try_exception. destruct (Hm u) as (evs & Ht & Hp).
  destruct (m u) as [[a| |e] u1]; cbn [snd] in *.
  - now exists evs.
  - now exists evs.
  - destruct (Hh e u1) as (evs' & Ht' & Hp'). exists (evs ++ evs').
    rewrite Ht', Ht, app_assoc, forallb_app, Hp, Hp'. now split.
Qed.

Lemma uemits_ticker_inputs P range : uemits P (ticker_inputs w range : U World unit).
Proof.
  induction range as [|i rest IH]; cbn [ticker_inputs]; [apply uemits_uret|].
  apply uemits_ubind; [|intros _; exact IH].
  intros u. unfold ticker_input. destruct (session_tickers u) as [l|].
  - destruct (nth_error l i); [apply uemits_set_session | apply uemits_crash].
  - apply uemits_crash.
Qed.

Lemma uemits_random_tickers P : uemits P (random_tickers web).
Proof.
  unfold random_tickers. apply uemits_ubind; [apply uemits_web_call|].
  intros [|table tables]; [apply uemits_crash|].
  destruct (find _ table) as [c|]; [|apply uemits_crash].
  destruct (List.length (snd c) <? 3)%nat; [apply uemits_crash|].
  intros u. exists []. destruct (random_sample web (snd c) 3 (world (backend u))).
  cbn. now rewrite app_nil_r.
Qed.

Lemma uemits_preview_without_send email region tickers :
  button w "Send Newsletter" = false ->
  uemits is_request (preview_and_send svc lib w email region tickers).
Proof.
  intros Hs. unfold preview_and_send. rewrite Hs.
  apply uemits_ubind; [apply uemits_show | intros _].
  apply uemits_ubind;
    [apply uemits_run_backend, emits_build_newsletter | intros built].
  repeat (apply uemits_ubind; [apply uemits_show | intros _]).
  apply uemits_ubind; [|intros _; apply uemits_uret].
  destruct (nonempty (snd (fst built))); [apply uemits_show | apply uemits_uret].
Qed.

(** X17. A run in which the Submit button and the Send button are not
    both reported as clicked hands no message to the e-mail service: all
    it adds to the backend's trace are requests to the model, the feed and
    the price provider. *)
Theorem script_sends_only_on_both_buttons (u : UiState World) :
  button w "Submit" && button w "Send Newsletter" = false ->
  exists evs,
    trace (backend (snd (script svc lib web w u))) = trace (backend u) ++ evs /\
    forallb is_request evs = true /\
    forallb (fun ev => negb (is_send ev)) evs = true.
Proof.
  intros Hb.
  assert (H : uemits is_request (script svc lib web w)).
  { unfold script.
    apply uemits_ubind; [apply uemits_show | intros _].
    apply uemits_ubind; [apply uemits_show | intros _].
    apply uemits_ubind.
    { intros v. unfold init_session. destruct (session_tickers v).
      - exists []. now rewrite app_nil_r.
      - apply uemits_set_session. }
    intros _. apply uemits_ubind; [apply uemits_ticker_inputs | intros _].
    apply uemits_ubind.
    { destruct (button w "🎲 Random (S&P 500)");
        [apply uemits_random_tickers | apply uemits_uret]. }
    intros _. destruct (button w "Submit"); [|apply uemits_uret].
    cbn [andb] in Hb. intros v. unfold submit.
    destruct (session_tickers v) as [session|]; [|apply uemits_crash].
    destruct (nonempty _ && _).
    - apply uemits_try_exception.
      + now apply uemits_preview_without_send.
      + intros e. apply uemits_show.
    - apply uemits_ubind; [apply uemits_show | intros _; apply uemits_stop]. }
  destruct (H u) as (evs & Ht & Hr). exists evs.
  repeat split; [exact Ht | exact Hr |].
  rewrite forallb_forall in *. intros ev Hin. specialize (Hr ev Hin).
  now destruct ev.
Qed.

(** The Submit branch with an e-mail address and at least one ticker. *)
Lemma buttons_submit (u : UiState World) t ts :
  button w "🎲 Random (S&P 500)" = false ->
  button w "Submit" = true ->
  nonempty (text_input w "Email" "" None) = true ->
  submitted_tickers lib (typed_tickers w (session_of u)) = t :: ts ->
  buttons svc lib web w (after_fields w u) =
  try_exception
    (preview_and_send svc lib w (text_input w "Email" "" None)
       (selectbox w "Region" regions) (t :: ts))
    report_error (after_fields w u).
Proof.
  intros Hr Hs He Ht. unfold buttons. rewrite Hr, Hs.
  unfold ubind at 1, uret. unfold submit.
  cbn [after_fields session_tickers]. now rewrite Ht, He.
Qed.

(** The [try] block when [build_newsletter] raises. *)
Lemma preview_build_failed email region tickers (u : UiState World) e st' :
  build_newsletter svc lib tickers region (backend u) = (Err e, st') ->
  preview_and_send svc lib w email region tickers u =
  (Crashed e, {| backend := st';
                 page := page u ++ [Spinner "Building newsletter…"];
                 session_tickers := session_tickers u |}).
Proof.
  intros H. unfold preview_and_send.
  unfold ubind at 1 2, show at 1, run_backend at 1.
  cbn [backend page session_tickers]. now rewrite H.
Qed.

(** The [try] block when [build_newsletter] returns. *)
Lemma preview_build_done email region tickers (u : UiState World)
      md chart64 price_df st' :
  build_newsletter svc lib tickers region (backend u) =
    (Ok (md, chart64, price_df), st') ->
  preview_and_send svc lib w email region tickers u =
  (if button w "Send Newsletter"
   then ubind (show (Spinner "Sending e-mail…"))
          (fun _ => ubind (run_backend (send_newsletter svc email md chart64))
          (fun _ => show (SuccessBox ("Newsletter sent to " ++ email ++ "!"))))
   else uret tt)
    {| backend := st';
       page := page u ++ preview md chart64 price_df;
       session_tickers := session_tickers u |}.
Proof.
  intros H. unfold preview_and_send.
  unfold ubind at 1 2, show at 1, run_backend at 1.
  cbn [backend page session_tickers]. rewrite H. cbn [fst snd].
  unfold preview.
  unfold ubind at 1 2 3 4 5, show at 1 2 3 4.
  cbn [backend page session_tickers].
  destruct (nonempty chart64); unfold show at 1, uret at 1;
    cbn [backend page session_tickers]; rewrite <- ?app_assoc; reflexivity.
Qed.

(** X18. Take a run that starts with three tickers in the session (or
    none yet), in which the Random button is not clicked and the Submit
    button is. If the e-mail field is empty, or all three ticker fields
    are, the run calls nothing in the backend: it shows the request to
    fill them in and stops. *)
Theorem script_rejects_missing_input (u : UiState World) :
  session_ready u ->
  button w "🎲 Random (S&P 500)" = false ->
  button w "Submit" = true ->
  text_input w "Email" "" None = "" \/
  filter nonempty (typed_tickers w (session_of u)) = [] ->
  script svc lib web w u =
  (Stopped,
   {| backend := backend u;
      page := page u ++
              [PageConfig "Personalised Financial Newsletter" "centered";
               Title "📬 Personalised Financial Newsletter";
               ErrorBox "Please enter an e-mail and at least one ticker." None];
      session_tickers := Some (typed_tickers w (session_of u)) |}).
Proof.
  intros Hready Hr Hs Hmissing. rewrite (script_after_fields u Hready).
  unfold buttons. rewrite Hr, Hs. unfold ubind at 1, uret. unfold submit.
  cbn [after_fields session_tickers].
  assert (Hc : nonempty (text_input w "Email" "" None) &&
               match submitted_tickers lib (typed_tickers w (session_of u)) with
               | [] => false
               | _ :: _ => true
               end = false).
  { destruct Hmissing as [-> | Hf]; [reflexivity|].
    unfold submitted_tickers. rewrite Hf. apply andb_false_r. }
  rewrite Hc. unfold ubind, show, stop, after_fields.
  cbn [backend page session_tickers]. now rewrite <- app_assoc.
Qed.

(** X19. No exception of the pipeline leaves a run in which the Random
    button is not clicked: the run ends normally or is stopped by the
    input check, whatever the services do. *)
Theorem script_catches_every_exception (u : UiState World) :
  session_ready u ->
  button w "🎲 Random (S&P 500)" = false ->
  fst (script svc lib web w u) = Went tt \/
  fst (script svc lib web w u) = Stopped.
Proof.
  intros Hready Hr. rewrite (script_after_fields u Hready).
  destruct (buttons svc lib web w (after_fields w u)) as [o u'] eqn:E.
  cbn [fst]. unfold buttons in E. rewrite Hr in E. unfold ubind at 1, uret in E.
  destruct (button w "Submit"); [|injection E as <- _; now left].
  unfold submit in E. cbn [after_fields session_tickers] in E.
  destruct (nonempty _ && _) in E.
  - unfold try_exception in E.
    destruct (preview_and_send _ _ _ _ _ _ _) as [[[]| |e] u1].
    + injection E as <- _. now left.
    + injection E as <- _. now right.
    + unfold show in E. injection E as <- _. now left.
  - unfold ubind, show, stop in E. injection E as <- _. now right.
Qed.

(** X20. When [build_newsletter] raises, the run shows the exception in
    an error box under the spinner, shows no preview, sends nothing and
    ends normally. *)
Theorem script_reports_build_failure (u : UiState World) t ts e st' :
  session_ready u ->
  button w "🎲 Random (S&P 500)" = false ->
  button w "Submit" = true ->
  nonempty (text_input w "Email" "" None) = true ->
  submitted_tickers lib (typed_tickers w (session_of u)) = t :: ts ->
  build_newsletter svc lib (t :: ts) (selectbox w "Region" regions) (backend u) =
    (Err e, st') ->
  script svc lib web w u =
  (Went tt,
   {| backend := st';
      page := page u ++
              [PageConfig "Personalised Financial Newsletter" "centered";
               Title "📬 Personalised Financial Newsletter";
               Spinner "Building newsletter…";
               ErrorBox "Error creating newsletter: " (Some e)];
      session_tickers := Some (typed_tickers w (session_of u)) |}).
Proof.
  intros Hready Hr Hs He Ht Hb. rewrite (script_after_fields u Hready).
  rewrite (buttons_submit u t ts Hr Hs He Ht). unfold try_exception.
  rewrite (preview_build_failed _ _ _ (after_fields w u) e st' Hb).
  unfold report_error, show, after_fields. cbn [backend page session_tickers].
  now rewrite <- !app_assoc.
Qed.

(** X21. When the newsletter is built, the Send button is clicked and
    [send_newsletter] raises (a missing credential included), the run shows
    the preview and then the exception in an error box headed "Error
    creating newsletter"; it shows no success message and ends normally. *)
Theorem script_reports_delivery_failure
        (u : UiState World) t ts md chart64 price_df st1 e st2 :
  session_ready u ->
  button w "🎲 Random (S&P 500)" = false ->
  button w "Submit" = true ->
  button w "Send Newsletter" = true ->
  nonempty (text_input w "Email" "" None) = true ->
  submitted_tickers lib (typed_tickers w (session_of u)) = t :: ts ->
  build_newsletter svc lib (t :: ts) (selectbox w "Region" regions) (backend u) =
    (Ok (md, chart64, price_df), st1) ->
  send_newsletter svc (text_input w "Email" "" None) md chart64 st1 = (Err e, st2) ->
  script svc lib web w u =
  (Went tt,
   {| backend := st2;
      page := page u ++
              [PageConfig "Personalised Financial Newsletter" "centered";
               Title "📬 Personalised Financial Newsletter"] ++
              preview md chart64 price_df ++
              [Spinner "Sending e-mail…";
               ErrorBox "Error creating newsletter: " (Some e)];
      session_tickers := Some (typed_tickers w (session_of u)) |}).
Proof.
  intros Hready Hr Hs Hsend He Ht Hb Hd. rewrite (script_after_fields u Hready).
  rewrite (buttons_submit u t ts Hr Hs He Ht). unfold try_exception.
  rewrite (preview_build_done _ _ _ (after_fields w u) md chart64 price_df st1 Hb).
  rewrite Hsend. unfold ubind, show at 1, run_backend, after_fields.
  cbn [backend page session_tickers]. rewrite Hd.
  unfold report_error, show. cbn [backend page session_tickers].
  now rewrite <- !app_assoc.
Qed.

(** X22. Take a run that starts with three tickers in the session (or
    none yet), in which the Random button is not clicked, the Submit
    button is and the Send button is not. With an e-mail address and at
    least one ticker typed, the backend is called once, as
    [build_newsletter] on the non-empty ticker fields upper-cased, in field
    order, with the selected region; there are at most three tickers. *)
Theorem script_builds_from_fields (u : UiState World) t ts :
  session_ready u ->
  button w "🎲 Random (S&P 500)" = false ->
  button w "Submit" = true ->
  button w "Send Newsletter" = false ->
  nonempty (text_input w "Email" "" None) = true ->
  submitted_tickers lib (typed_tickers w (session_of u)) = t :: ts ->
  backend (snd (script svc lib web w u)) =
    snd (build_newsletter svc lib (t :: ts) (selectbox w "Region" regions) (backend u)) /\
  List.length (t :: ts) <= 3.
Proof.
  intros Hready Hr Hs Hsend He Ht. split.
  - rewrite (script_after_fields u Hready).
    rewrite (buttons_submit u t ts Hr Hs He Ht). unfold try_exception.
    destruct (build_newsletter svc lib (t :: ts) (selectbox w "Region" regions)
                (backend u)) as [[[[md chart64] price_df]|e] st'] eqn:Hb.
    + rewrite (preview_build_done _ _ _ (after_fields w u) md chart64 price_df st' Hb).
      rewrite Hsend. reflexivity.
    + rewrite (preview_build_failed _ _ _ (after_fields w u) e st' Hb).
      reflexivity.
  - rewrite <- Ht. unfold submitted_tickers. rewrite length_map.
    etransitivity; [apply filter_length_le | reflexivity].
Qed.

(** X23. The Random branch is outside the [try]: when the reference page
    cannot be read, the exception leaves the run before the Submit branch
    is reached and no error box is shown. *)
Theorem script_random_failure_escapes (u : UiState World) e wd' :
  session_ready u ->
  button w "🎲 Random (S&P 500)" = true ->
  read_html web wikipedia_sp500 (world (backend u)) = (inl e, wd') ->
  script svc lib web w u =
  (Crashed (Raised_by_library e),
   {| backend := {| world := wd'; trace := trace (backend u) |};
      page := page u ++
              [PageConfig "Personalised Financial Newsletter" "centered";
               Title "📬 Personalised Financial Newsletter";
               ReadHtml wikipedia_sp500];
      session_tickers := Some (typed_tickers w (session_of u)) |}).
Proof.
  intros Hready Hr Hw. rewrite (script_after_fields u Hready).
  unfold buttons. rewrite Hr. unfold ubind at 1, random_tickers.
  unfold ubind at 1, web_call, after_fields. cbn [backend page session_tickers].
  rewrite Hw. now rewrite <- app_assoc.
Qed.

End FrontEndFacts.

(** *** Runs of the front end *)

Lemma script_sends_only_on_both_buttons_witness :
  exists evs,
    trace (backend (snd (script Sim.services Sim.pylib SimUi.web SimUi.submitting
                           (SimUi.fresh Sim.busy)))) = [] ++ evs /\
    forallb is_request evs = true /\
    forallb (fun ev => negb (is_send ev)) evs = true.
Proof.
  apply (script_sends_only_on_both_buttons Sim.services Sim.pylib SimUi.web
           SimUi.submitting (SimUi.fresh Sim.busy)).
  reflexivity.
Defined.

Lemma script_rejects_missing_input_witness :
  fst (script Sim.services Sim.pylib SimUi.web
         (SimUi.widgets "" "aapl" "" "" false true true) (SimUi.fresh Sim.busy)) =
  Stopped.
Proof.
  rewrite (script_rejects_missing_input Sim.services Sim.pylib SimUi.web
             (SimUi.widgets "" "aapl" "" "" false true true) (SimUi.fresh Sim.busy)).
  - reflexivity.
  - reflexivity.
  - reflexivity.
  - reflexivity.
  - left. reflexivity.
Defined.

Lemma script_catches_every_exception_witness :
  fst (script Sim.services Sim.pylib SimUi.web SimUi.sending (SimUi.fresh Sim.quiet)) =
    Went tt \/
  fst (script Sim.services Sim.pylib SimUi.web SimUi.sending (SimUi.fresh Sim.quiet)) =
    Stopped.
Proof.
  apply (script_catches_every_exception Sim.services Sim.pylib SimUi.web
           SimUi.sending (SimUi.fresh Sim.quiet)); reflexivity.
Defined.

(** The quiet world has no prices: the run shows the error of the price
    stage. *)
Lemma script_reports_build_failure_witness :
  page (snd (script Sim.services Sim.pylib SimUi.web SimUi.submitting
               (SimUi.fresh Sim.quiet))) =
  [PageConfig "Personalised Financial Newsletter" "centered";
   Title "📬 Personalised Financial Newsletter";
   Spinner "Building newsletter…";
   ErrorBox "Error creating newsletter: "
            (Some (ValueError "yfinance returned no data."))].
Proof.
  rewrite (script_reports_build_failure Sim.services Sim.pylib SimUi.web
             SimUi.submitting (SimUi.fresh Sim.quiet) "AAPL" []
             (ValueError "yfinance returned no data.")
             (snd (build_newsletter Sim.services Sim.pylib ["AAPL"] "USA"
                     (Sim.start Sim.quiet)))).
  - reflexivity.
  - reflexivity.
  - reflexivity.
  - reflexivity.
  - reflexivity.
  - reflexivity.
  - vm_compute. reflexivity.
Defined.

(** Without the credential the delivery fails after the preview. *)
Lemma script_reports_delivery_failure_witness :
  fst (script Sim.services Sim.pylib SimUi.web SimUi.sending
         (SimUi.fresh SimUi.busy_no_key)) = Went tt /\
  last (page (snd (script Sim.services Sim.pylib SimUi.web SimUi.sending
                     (SimUi.fresh SimUi.busy_no_key))))
       (Title "") =
  ErrorBox "Error creating newsletter: "
           (Some (RuntimeError "SENDGRID_API_KEY not set")).
Proof.
  rewrite (script_reports_delivery_failure Sim.services Sim.pylib SimUi.web
             SimUi.sending (SimUi.fresh SimUi.busy_no_key) "AAPL" []
             SimUi.built_md SimUi.built_chart SimUi.built_prices
             (snd SimUi.built) (RuntimeError "SENDGRID_API_KEY not set")
             (snd SimUi.built)).
  - split; reflexivity.
  - reflexivity.
  - reflexivity.
  - reflexivity.
  - reflexivity.
  - reflexivity.
  - reflexivity.
  - vm_compute. reflexivity.
  - vm_compute. reflexivity.
Defined.

Lemma script_builds_from_fields_witness :
  backend (snd (script Sim.services Sim.pylib SimUi.web SimUi.submitting
                  (SimUi.fresh Sim.busy))) =
  snd (build_newsletter Sim.services Sim.pylib ["AAPL"] "USA" (Sim.start Sim.busy)).
Proof.
  apply (script_builds_from_fields Sim.services Sim.pylib SimUi.web
           SimUi.submitting (SimUi.fresh Sim.busy) "AAPL" []); reflexivity.
Defined.

Lemma script_random_failure_escapes_witness :
  fst (script Sim.services Sim.pylib SimUi.web_down
         (SimUi.widgets "a@b.c" "aapl" "" "" true true true) (SimUi.fresh Sim.busy)) =
  Crashed (Raised_by_library (LibError "URLError" "timed out")).
Proof.
  rewrite (script_random_failure_escapes Sim.services Sim.pylib SimUi.web_down
             (SimUi.widgets "a@b.c" "aapl" "" "" true true true)
             (SimUi.fresh Sim.busy) (LibError "URLError" "timed out")
             (Sim.tick Sim.busy)).
  - reflexivity.
  - reflexivity.
  - reflexivity.
  - reflexivity.
Defined.
